(** * A telephony-to-voice-assistant bridge (FastAPI server, pipeline
      wiring, CLI caller): shallow embedding and verified properties.

    The development follows the three Python sources:
    - [backend/bot.py]       : [save_audio] and [run_bot] (module [Bot]);
    - [backend/app.py]       : start-up configuration, the HTTP routes and
                               the [/stream] WebSocket endpoint (module [App]);
    - [backend/make_call.py] : the command-line caller (module [MakeCall]).

    Python objects are values of [pyval]; effects (log records, prints,
    calls into external services) are collected in a trace by a small
    writer/exception monad [M]; the behaviour of external libraries that a
    run observes (what the socket delivers, whether a provider call raises,
    the clock) is an explicit argument of the embedded functions. *)

From Stdlib Require Import ZArith String Ascii List Bool Lia DecimalString.
From Stdlib.Strings Require Import Byte.
From stdpp Require Import gmap strings list.

Set Warnings "-register-all".
Local Open Scope Z_scope.

(* ===================================================================== *)
(** * Python values, exceptions and the operations the sources use        *)
(* ===================================================================== *)

Module Py.

(** Values produced by [json.loads], held in dicts and passed around.
    A [dict] with string keys is a [gmap string pyval]. *)
Inductive pyval : Type :=
| PyNone
| PyBool (b : bool)
| PyInt (z : Z)
| PyStr (s : string)
| PyBytes (b : list byte)
| PyList (l : list pyval)
| PyDict (d : gmap string pyval).

(** Instances of Python's [Exception] class, i.e. what an
    [except Exception] clause catches.  [Raised cls msg] stands for any
    exception raised inside an external library, with its class name and
    its [str()]. *)
Inductive Exception : Type :=
| KeyError (key : string)
| TypeError (msg : string)
| AttributeError (msg : string)
| WaveError (msg : string)
| StructError (msg : string)
| RequestException (msg : string) (response_text : option string)
| Raised (cls : string) (msg : string).

(** [str(e)].  For a [KeyError] this is the [repr] of the key; the keys
    looked up by the sources are plain identifiers, whose [repr] is the
    key between single quotes. *)
Definition str_exc (e : Exception) : string :=
  match e with
  | KeyError k => "'" +:+ k +:+ "'"
  | TypeError m | AttributeError m | WaveError m | StructError m => m
  | RequestException m _ => m
  | Raised _ m => m
  end.

(** [isinstance(e, requests.exceptions.RequestException)] *)
Definition is_RequestException (e : Exception) : bool :=
  match e with RequestException _ _ => true | _ => false end.

(** Truth value of an object, as tested by [if x:], [not x], [x or y]
    and [all]. *)
Definition truthy (v : pyval) : bool :=
  match v with
  | PyNone => false
  | PyBool b => b
  | PyInt z => negb (z =? 0)
  | PyStr s => negb (String.eqb s "")
  | PyBytes b => match b with [] => false | _ => true end
  | PyList l => match l with [] => false | _ => true end
  | PyDict d => negb (bool_decide (d = ∅))
  end.

(** [x or y] *)
Definition py_or (x y : pyval) : pyval := if truthy x then x else y.

(** [all(xs)] *)
Definition py_all (xs : list pyval) : bool := forallb truthy xs.

(** [x is None] *)
Definition is_None (v : pyval) : bool :=
  match v with PyNone => true | _ => false end.

(** [v == s] for a string literal [s] *)
Definition py_eq_str (v : pyval) (s : string) : bool :=
  match v with PyStr t => String.eqb t s | _ => false end.

(** [type(v).__name__] *)
Definition type_name (v : pyval) : string :=
  match v with
  | PyNone => "NoneType" | PyBool _ => "bool" | PyInt _ => "int"
  | PyStr _ => "str" | PyBytes _ => "bytes" | PyList _ => "list"
  | PyDict _ => "dict"
  end.

(** [v[k]] for a string key [k]: a dict lookup, [KeyError] when the key
    is absent, [TypeError] on anything that is not a dict. *)
Definition py_getitem (v : pyval) (k : string) : Exception + pyval :=
  match v with
  | PyDict d =>
      match d !! k with
      | Some x => inr x
      | None => inl (KeyError k)
      end
  | PyList _ => inl (TypeError "list indices must be integers or slices, not str")
  | PyStr _ => inl (TypeError "string indices must be integers, not 'str'")
  | PyBytes _ => inl (TypeError "byte indices must be integers or slices, not str")
  | _ => inl (TypeError ("'" +:+ type_name v +:+ "' object is not subscriptable"))
  end.

(** [d.get(k, None)] on a dict *)
Definition dict_get (d : gmap string pyval) (k : string) : pyval :=
  default PyNone (d !! k).

(** [v.get(k)]: only dicts have the method. *)
Definition py_get (v : pyval) (k : string) : Exception + pyval :=
  match v with
  | PyDict d => inr (dict_get d k)
  | _ => inl (AttributeError
                ("'" +:+ type_name v +:+ "' object has no attribute 'get'"))
  end.

(** Decimal text of an integer, as [str] prints it. *)
Definition str_int (z : Z) : string := NilZero.string_of_int (Z.to_int z).

Section Str.
(** [repr] of bytes and containers is left to the interpreter. *)
Variable repr : pyval -> string.

(** [str(v)], which is what an f-string or a [{}] log placeholder
    interpolates. *)
Definition py_str (v : pyval) : string :=
  match v with
  | PyNone => "None"
  | PyBool true => "True"
  | PyBool false => "False"
  | PyInt z => str_int z
  | PyStr s => s
  | PyBytes _ | PyList _ | PyDict _ => repr v
  end.
End Str.

(** [s.rstrip(c)] for a one-character [c] *)
Fixpoint rstrip (c : ascii) (s : string) : string :=
  match s with
  | EmptyString => EmptyString
  | String a t =>
      let t' := rstrip c t in
      if String.eqb t' "" && Ascii.eqb a c then EmptyString else String a t'
  end.

(** [c in s] for a one-character [c] *)
Fixpoint has_char (c : ascii) (s : string) : bool :=
  match s with
  | EmptyString => false
  | String a t => Ascii.eqb a c || has_char c t
  end.

(** [s.split(c)] for a one-character [c] *)
Fixpoint split (c : ascii) (s : string) : list string :=
  match s with
  | EmptyString => [EmptyString]
  | String a t =>
      if Ascii.eqb a c then EmptyString :: split c t
      else match split c t with
           | [] => [String a EmptyString]
           | first :: others => String a first :: others
           end
  end.

(** [c.join(parts)] for a one-character [c] *)
Fixpoint join (c : ascii) (parts : list string) : string :=
  match parts with
  | [] => EmptyString
  | [last] => last
  | first :: others => first +:+ String c (join c others)
  end.

(** [s.startswith(c)] for a one-character [c] *)
Definition starts_with (c : ascii) (s : string) : bool :=
  match s with
  | EmptyString => false
  | String a _ => Ascii.eqb a c
  end.

(** [s.endswith(suffix)] *)
Fixpoint ends_with_str (suffix s : string) : bool :=
  String.eqb s suffix
  || match s with
     | EmptyString => false
     | String _ t => ends_with_str suffix t
     end.

(** [os.getenv] on an environment, without and with a default *)
Definition getenv (env : gmap string string) (k : string) : pyval :=
  match env !! k with Some s => PyStr s | None => PyNone end.

Definition getenv_default (env : gmap string string) (k : string)
    (dflt : pyval) : pyval :=
  match env !! k with Some s => PyStr s | None => dflt end.

End Py.
Export Py.

(* ===================================================================== *)
(** * Objects of the external pipeline framework, as [run_bot] builds them *)
(* ===================================================================== *)

Module Pipecat.

(** The accepted socket as the server code sees it: the peer's port
    ([websocket.client.port]) and what the first
    [await websocket.receive()] yields, an ASGI message (a dict) or an
    exception. *)
Record WebSocket : Type := {
  client_port : Z;
  receive : Exception + gmap string pyval
}.

Inductive VADAnalyzer : Type := SileroVADAnalyzer.

Inductive FrameSerializer : Type :=
| PlivoFrameSerializer (stream_sid : pyval).

Record FastAPIWebsocketParams : Type := {
  audio_in_enabled : bool;
  audio_out_enabled : bool;
  add_wav_header : bool;
  vad_enabled : bool;
  vad_analyzer : VADAnalyzer;
  vad_audio_passthrough : bool;
  serializer : FrameSerializer
}.

Record FastAPIWebsocketTransport : Type := {
  websocket : WebSocket;
  params : FastAPIWebsocketParams
}.

Record OpenAILLMService : Type := {
  llm_api_key : pyval;
  model : string
}.

Record DeepgramSTTService : Type := {
  stt_api_key : pyval;
  audio_passthrough : bool
}.

Record ElevenLabsTTSService : Type := {
  tts_api_key : pyval;
  voice_id : pyval;
  push_silence_after_stop : bool
}.

(** [OpenAILLMContext(messages)]: the list of role-tagged messages. *)
Record OpenAILLMContext : Type := {
  messages : list (gmap string pyval)
}.

Record AudioBufferProcessor : Type := {
  user_continuous_stream : bool
}.

(** The stages a [Pipeline] is made of. *)
Inductive FrameProcessor : Type :=
| TransportInput (t : FastAPIWebsocketTransport)
| STTStage (s : DeepgramSTTService)
| UserContextAggregator (llm : OpenAILLMService) (c : OpenAILLMContext)
| LLMStage (l : OpenAILLMService)
| TTSStage (t : ElevenLabsTTSService)
| TransportOutput (t : FastAPIWebsocketTransport)
| AudioBufferStage (a : AudioBufferProcessor)
| AssistantContextAggregator (llm : OpenAILLMService) (c : OpenAILLMContext).

Record PipelineParams : Type := {
  audio_in_sample_rate : Z;
  audio_out_sample_rate : Z;
  allow_interruptions : bool;
  enable_metrics : bool;
  disable_buffers : bool
}.

Record PipelineTask : Type := {
  pipeline : list FrameProcessor;
  task_params : PipelineParams
}.

Record PipelineRunner : Type := {
  handle_sigint : bool;
  force_gc : bool
}.

(** What a stage is, without its configuration. *)
Inductive StageKind : Type :=
| KTransportInput | KSpeechToText | KUserContext | KLLM
| KTextToSpeech | KTransportOutput | KAudioBuffer | KAssistantContext.

Definition stage_kind (p : FrameProcessor) : StageKind :=
  match p with
  | TransportInput _ => KTransportInput
  | STTStage _ => KSpeechToText
  | UserContextAggregator _ _ => KUserContext
  | LLMStage _ => KLLM
  | TTSStage _ => KTextToSpeech
  | TransportOutput _ => KTransportOutput
  | AudioBufferStage _ => KAudioBuffer
  | AssistantContextAggregator _ _ => KAssistantContext
  end.

(** The transport a stage reads from or writes to, if it is one of the
    two transport ends. *)
Definition stage_transport (p : FrameProcessor)
    : option FastAPIWebsocketTransport :=
  match p with
  | TransportInput t | TransportOutput t => Some t
  | _ => None
  end.

End Pipecat.
Export Pipecat.

(* ===================================================================== *)
(** * Effects: a trace of observable actions, and exceptions              *)
(* ===================================================================== *)

Module Eff.

Inductive level : Type := DEBUG | INFO | WARNING | ERROR.

(** What a run does to the outside world, in order. *)
Inductive event : Type :=
| Log (lvl : level) (msg : string)           (* a logger call *)
| Print (line : string)                      (* print() to stdout *)
| WsAccept                                   (* websocket.accept() *)
| WsReceive                                  (* websocket.receive() *)
| WsSend (payload : pyval)                   (* a message sent on the socket *)
| WsClose                                    (* websocket.close() *)
| CallsCreate (from_ to_ answer_url : pyval) (answer_method : string)
                                             (* plivo_client.calls.create *)
| HttpPost (url : string)                    (* requests.post *)
| RunnerRun (runner : PipelineRunner) (task : PipelineTask).
                                             (* runner.run(task) *)

(** A computation: the events it produced and either the exception it
    raised or its result. *)
Definition M (A : Type) : Type := list event * (Exception + A).

Definition ret {A} (a : A) : M A := ([], inr a).

Definition bind {A B} (m : M A) (f : A -> M B) : M B :=
  match m with
  | (t, inl e) => (t, inl e)
  | (t, inr a) => let '(t', r) := f a in (t ++ t', r)
  end.

Definition emit (ev : event) : M unit := ([ev], inr tt).

Definition raise {A} (e : Exception) : M A := ([], inl e).

(** The outcome of evaluating a pure expression that may raise. *)
Definition lift {A} (r : Exception + A) : M A := ([], r).

(** A call into the outside world: the event, then what came back. *)
Definition call {A} (ev : event) (outcome : Exception + A) : M A :=
  ([ev], outcome).

Definition log (lvl : level) (msg : string) : M unit := emit (Log lvl msg).

(** [try: m  except Exception as e: h e] *)
Definition try_except {A} (m : M A) (h : Exception -> M A) : M A :=
  match m with
  | (t, inl e) => let '(t', r) := h e in (t ++ t', r)
  | (t, inr a) => (t, inr a)
  end.

(** [try: m  finally: fin] *)
Definition try_finally {A} (m : M A) (fin : M unit) : M A :=
  let '(t, r) := m in
  match fin with
  | (t', inl e') => (t ++ t', inl e')
  | (t', inr _) => (t ++ t', r)
  end.

Definition trace {A} (m : M A) : list event := fst m.
Definition outcome {A} (m : M A) : Exception + A := snd m.

Definition is_RunnerRun (ev : event) : bool :=
  match ev with RunnerRun _ _ => true | _ => false end.
Definition is_WsSend (ev : event) : bool :=
  match ev with WsSend _ => true | _ => false end.
Definition is_CallsCreate (ev : event) : bool :=
  match ev with CallsCreate _ _ _ _ => true | _ => false end.
Definition is_WsClose (ev : event) : bool :=
  match ev with WsClose => true | _ => false end.

End Eff.
Export Eff.

Declare Scope eff_scope.
Delimit Scope eff_scope with eff.
Notation "x <- m ;; k" := (bind m (fun x => k))
  (at level 100, m at next level, right associativity) : eff_scope.
Notation "m ;;; k" := (bind m (fun _ => k))
  (at level 100, right associativity) : eff_scope.

(* ===================================================================== *)
(** * The standard library's WAV writer ([wave.Wave_write] on a BytesIO)  *)
(* ===================================================================== *)

Module Wave.

Definition byte_of_Z (z : Z) : byte :=
  default x00 (Byte.of_N (Z.to_N (z mod 256))).

Definition Z_of_byte (b : byte) : Z := Z.of_N (Byte.to_N b).

(** Little-endian bytes of an unsigned number, and back. *)
Fixpoint le_bytes (n : nat) (v : Z) : list byte :=
  match n with
  | O => []
  | S k => byte_of_Z v :: le_bytes k (v / 256)
  end.

Fixpoint le_value (bs : list byte) : Z :=
  match bs with
  | [] => 0
  | b :: r => Z_of_byte b + 256 * le_value r
  end.

(** [struct.pack] of one unsigned field of [n] bytes ([<H] is 2, [<L] is
    4): [struct.error] when the number does not fit. *)
Definition pack_uint (n : nat) (v : Z) : Exception + list byte :=
  if (0 <=? v) && (v <? 256 ^ Z.of_nat n)
  then inr (le_bytes n v)
  else inl (StructError "argument out of range").

Definition RIFF : list byte := [x52; x49; x46; x46].
Definition WAVE : list byte := [x57; x41; x56; x45].
Definition fmt_ : list byte := [x66; x6d; x74; x20].
Definition data : list byte := [x64; x61; x74; x61].
Definition WAVE_FORMAT_PCM : Z := 1.

(** [struct.pack('<L4s4sLHHLLHH4s', a, b'WAVE', b'fmt ', 16, tag, nch,
    rate, byterate, align, bits, b'data')]: all fields or an error. *)
Definition pack_header (form_length tag nch rate byterate align bits : Z)
    : Exception + list byte :=
  match pack_uint 4 form_length, pack_uint 4 16, pack_uint 2 tag,
        pack_uint 2 nch, pack_uint 4 rate, pack_uint 4 byterate,
        pack_uint 2 align, pack_uint 2 bits with
  | inr a, inr b, inr c, inr d, inr e, inr f, inr g, inr h =>
      inr (a ++ WAVE ++ fmt_ ++ b ++ c ++ d ++ e ++ f ++ g ++ h ++ data)
  | inl x, _, _, _, _, _, _, _ => inl x
  | _, inl x, _, _, _, _, _, _ => inl x
  | _, _, inl x, _, _, _, _, _ => inl x
  | _, _, _, inl x, _, _, _, _ => inl x
  | _, _, _, _, inl x, _, _, _ => inl x
  | _, _, _, _, _, inl x, _, _ => inl x
  | _, _, _, _, _, _, inl x, _ => inl x
  | _, _, _, _, _, _, _, inl x => inl x
  end.

(** [seek(pos); write(bs)] on a buffer that already extends past the
    written range. *)
Definition overwrite (pos : nat) (bs buf : list byte) : list byte :=
  take pos buf ++ bs ++ drop (pos + length bs) buf.

(** The writer object: its private attributes and the underlying
    in-memory file. *)
Record Wave_write : Type := mkWave {
  nchannels : Z;
  sampwidth : Z;
  framerate : Z;
  nframes : Z;
  nframeswritten : Z;
  datawritten : Z;
  datalength : Z;
  headerwritten : bool;
  form_length_pos : nat;
  data_length_pos : nat;
  file : list byte
}.

(** [wave.open(io.BytesIO(), "wb")] *)
Definition open_wb : Wave_write :=
  mkWave 0 0 0 0 0 0 0 false 0 0 [].

(** A method call: the exception it raised, if any, and the object
    afterwards. *)
Definition method : Type := Wave_write -> option Exception * Wave_write.

Definition seq (a b : method) : method :=
  fun w => match a w with
           | (Some e, w') => (Some e, w')
           | (None, w') => b w'
           end.

Definition fail (msg : string) : method := fun w => (Some (WaveError msg), w).

Definition changing_after_write : string :=
  "cannot change parameters after starting to write".

Definition setnchannels (n : Z) : method := fun w =>
  if negb (datawritten w =? 0) then fail changing_after_write w
  else if n <? 1 then fail "bad # of channels" w
  else (None, mkWave n (sampwidth w) (framerate w) (nframes w)
                (nframeswritten w) (datawritten w) (datalength w)
                (headerwritten w) (form_length_pos w) (data_length_pos w)
                (file w)).

Definition setsampwidth (s : Z) : method := fun w =>
  if negb (datawritten w =? 0) then fail changing_after_write w
  else if (s <? 1) || (4 <? s) then fail "bad sample width" w
  else (None, mkWave (nchannels w) s (framerate w) (nframes w)
                (nframeswritten w) (datawritten w) (datalength w)
                (headerwritten w) (form_length_pos w) (data_length_pos w)
                (file w)).

(** For an [int] rate, [int(round(framerate))] is the rate itself. *)
Definition setframerate (r : Z) : method := fun w =>
  if negb (datawritten w =? 0) then fail changing_after_write w
  else if r <=? 0 then fail "bad frame rate" w
  else (None, mkWave (nchannels w) (sampwidth w) r (nframes w)
                (nframeswritten w) (datawritten w) (datalength w)
                (headerwritten w) (form_length_pos w) (data_length_pos w)
                (file w)).

Definition _write_header (initlength : Z) : method := fun w =>
  let file1 := file w ++ RIFF in
  let nfr := if nframes w =? 0
             then initlength / (nchannels w * sampwidth w)
             else nframes w in
  let dl := nfr * nchannels w * sampwidth w in
  let w1 := mkWave (nchannels w) (sampwidth w) (framerate w) nfr
              (nframeswritten w) (datawritten w) dl false
              (length file1) (data_length_pos w) file1 in
  match pack_header (36 + dl) WAVE_FORMAT_PCM (nchannels w) (framerate w)
          (nchannels w * framerate w * sampwidth w)
          (nchannels w * sampwidth w) (sampwidth w * 8) with
  | inl e => (Some e, w1)
  | inr hdr =>
      let file2 := file1 ++ hdr in
      let w2 := mkWave (nchannels w) (sampwidth w) (framerate w) nfr
                  (nframeswritten w) (datawritten w) dl false
                  (length file1) (length file2) file2 in
      match pack_uint 4 dl with
      | inl e => (Some e, w2)
      | inr b =>
          (None, mkWave (nchannels w) (sampwidth w) (framerate w) nfr
                   (nframeswritten w) (datawritten w) dl true
                   (length file1) (length file2) (file2 ++ b))
      end
  end.

Definition _ensure_header_written (datasize : Z) : method := fun w =>
  if headerwritten w then (None, w)
  else if nchannels w =? 0 then fail "# channels not specified" w
  else if sampwidth w =? 0 then fail "sample width not specified" w
  else if framerate w =? 0 then fail "sampling rate not specified" w
  else _write_header datasize w.

(** On a little-endian host the frames are written as they are. *)
Definition writeframesraw (frames : list byte) : method :=
  seq (_ensure_header_written (Z.of_nat (length frames)))
      (fun w =>
         let n := Z.of_nat (length frames) in
         (None, mkWave (nchannels w) (sampwidth w) (framerate w) (nframes w)
                  (nframeswritten w + n / (sampwidth w * nchannels w))
                  (datawritten w + n) (datalength w) (headerwritten w)
                  (form_length_pos w) (data_length_pos w)
                  (file w ++ frames))).

Definition _patchheader : method := fun w =>
  if datawritten w =? datalength w then (None, w)
  else
    match pack_uint 4 (36 + datawritten w) with
    | inl e => (Some e, w)
    | inr a =>
        let file1 := overwrite (form_length_pos w) a (file w) in
        let w1 := mkWave (nchannels w) (sampwidth w) (framerate w)
                    (nframes w) (nframeswritten w) (datawritten w)
                    (datalength w) (headerwritten w) (form_length_pos w)
                    (data_length_pos w) file1 in
        match pack_uint 4 (datawritten w) with
        | inl e => (Some e, w1)
        | inr b =>
            (None, mkWave (nchannels w) (sampwidth w) (framerate w)
                     (nframes w) (nframeswritten w) (datawritten w)
                     (datawritten w) (headerwritten w) (form_length_pos w)
                     (data_length_pos w)
                     (overwrite (data_length_pos w) b file1))
        end
    end.

Definition patch_if_needed : method := fun w =>
  if negb (datalength w =? datawritten w) then _patchheader w else (None, w).

Definition writeframes (frames : list byte) : method :=
  seq (writeframesraw frames) patch_if_needed.

Definition close : method :=
  seq (_ensure_header_written 0) patch_if_needed.

(** [with wave.open(buffer, "wb") as wf: body]: [__exit__] closes the
    writer whether or not the body raised; an exception raised while
    closing replaces the one in flight. *)
Definition with_open (body : method) : option Exception * Wave_write :=
  match body open_wb with
  | (None, w) => close w
  | (Some e, w) =>
      match close w with
      | (Some e', w') => (Some e', w')
      | (None, w') => (Some e, w')
      end
  end.




End Wave.

(* ===================================================================== *)
(** * backend/bot.py                                                      *)
(* ===================================================================== *)

Module Bot.

(** ** Clock, paths and the file system *)

Record datetime : Type := {
  year : Z; month : Z; day : Z;
  hour : Z; minute : Z; second : Z; microsecond : Z
}.

Definition digit (n : Z) : ascii := ascii_of_nat (48 + Z.to_nat (n mod 10)).

(** Zero-padded decimal fields: [%m %d %H %M %S] (two digits) and [%Y]
    (four digits, for the years 1000 to 9999 a clock reading has). *)
Definition dec2 (n : Z) : string :=
  String (digit (n / 10)) (String (digit n) EmptyString).

Definition dec4 (n : Z) : string :=
  String (digit (n / 1000)) (String (digit (n / 100)) (dec2 n)).

(** [d.strftime('%Y%m%d_%H%M%S')] *)
Definition strftime_stamp (d : datetime) : string :=
  dec4 (year d) +:+ dec2 (month d) +:+ dec2 (day d) +:+ "_" +:+
  dec2 (hour d) +:+ dec2 (minute d) +:+ dec2 (second d).

(** A [pathlib.Path]: an absolute POSIX path, as its components below
    the root. *)
Definition Path : Type := list string.

Definition parent (p : Path) : Path := removelast p.

(** The components [pathlib] reads in a string: the text between the
    slashes, without the empty pieces and the pieces that are ["."]. *)
Definition path_parts (name : string) : list string :=
  List.filter (fun c => negb (String.eqb c "") && negb (String.eqb c "."))
              (split "/" name).

(** [p / name]: the components of [name] are appended to those of [p];
    a [name] that starts with a slash is absolute and replaces [p]. *)
Definition joinpath (p : Path) (name : string) : Path :=
  if starts_with "/" name then path_parts name else p ++ path_parts name.

Fixpoint path_str (p : Path) : string :=
  match p with
  | [] => EmptyString
  | c :: r => "/" +:+ c +:+ path_str r
  end.

(** Directories and regular files on disk.  Failures of the operating
    system (permissions, full disk) are not part of the model. *)
Record filesystem : Type := {
  dirs : gset (list string);
  files : gmap (list string) (list byte)
}.

(** [p.mkdir(exist_ok=True)] *)
Definition mkdir_exist_ok (p : Path) (fs : filesystem) : filesystem :=
  {| dirs := {[ p ]} ∪ dirs fs; files := files fs |}.

(** The file at [p] created or replaced, with [content]. *)
Definition write_file (p : Path) (content : list byte) (fs : filesystem)
    : filesystem :=
  {| dirs := dirs fs; files := <[ p := content ]> (files fs) |}.

Definition NUL : ascii := ascii_of_nat 0.

(** [open(str(p), "wb")] followed by [write(content)]: the file is
    created in its directory, which has to exist ([FileNotFoundError]
    otherwise).  [".."] components and symbolic links are not
    resolved. *)
Definition open_write (p : Path) (content : list byte) (fs : filesystem)
    : Exception + filesystem :=
  if bool_decide (parent p ∈ dirs fs) then
    inr (write_file p content fs)
  else
    inl (Raised "FileNotFoundError"
           ("[Errno 2] No such file or directory: '" +:+ path_str p +:+ "'")).

(** ** [save_audio] *)

Section SaveAudio.
(** [datetime.datetime.now()] at the call, and the directory that holds
    bot.py ([Path(__file__).resolve().parent]). *)
Variable now : datetime.
Variable current_dir : Path.

Definition recordings_dir : Path := joinpath (parent current_dir) "recordings".

Definition recording_name (server_name : string) : string :=
  server_name +:+ "_recording_" +:+ strftime_stamp now +:+ ".wav".

(** The in-memory WAV encoding of lines 52-57. *)
Definition encode_wav (audio : list byte) (sample_rate num_channels : Z)
    : option Exception * Wave.Wave_write :=
  Wave.with_open
    (Wave.seq (Wave.setsampwidth 2)
       (Wave.seq (Wave.setnchannels num_channels)
          (Wave.seq (Wave.setframerate sample_rate)
             (Wave.writeframes audio)))).

(** The events and result of the call, and the file system after it.
    The audio is encoded in memory first; the file is opened only when
    the encoding went through, and [open] refuses a name that holds a
    NUL character ([current_dir], the path of an existing directory,
    holds none). *)
Definition save_audio (server_name : string) (audio : list byte)
    (sample_rate num_channels : Z) (fs : filesystem)
    : M unit * filesystem :=
  if (0 <? length audio)%nat then
    let fs1 := mkdir_exist_ok recordings_dir fs in
    let filename := joinpath recordings_dir (recording_name server_name) in
    match encode_wav audio sample_rate num_channels with
    | (Some e, _) => (raise e, fs1)
    | (None, wf) =>
        if has_char NUL (recording_name server_name) then
          (raise (Raised "ValueError" "embedded null byte"), fs1)
        else
          match open_write filename (Wave.file wf) fs1 with
          | inl e => (raise e, fs1)
          | inr fs2 =>
              (log INFO ("Merged audio saved to " +:+ path_str filename), fs2)
          end
    end
  else
    (log INFO "No audio data to save", fs).

End SaveAudio.

(** ** [run_bot] *)

Definition default_system_prompt : string :=
  "You are a helpful assistant named Mirai. Your output will be converted to audio so don't include special characters in your answers. Respond with a short short sentence. You are developed by a company called Iffort.".

(** What the external runtime does during one call: whether constructing
    the transport and services raises, and how [runner.run] ends. *)
Record BotRuntime : Type := {
  setup_fault : option Exception;
  run_result : Exception + unit
}.

Section RunBot.
Variable repr : pyval -> string.
Variable env : gmap string string.
(** [SYSTEM_PROMPT] of prompt.py, [None] when the import failed. *)
Variable SYSTEM_PROMPT : pyval.
Variable rt : BotRuntime.

Definition make_transport (websocket_client : WebSocket) (stream_sid : pyval)
    : FastAPIWebsocketTransport :=
  {| websocket := websocket_client;
     params := {| audio_in_enabled := true;
                  audio_out_enabled := true;
                  add_wav_header := false;
                  vad_enabled := true;
                  vad_analyzer := SileroVADAnalyzer;
                  vad_audio_passthrough := true;
                  serializer := PlivoFrameSerializer stream_sid |} |}.

Definition make_task (websocket_client : WebSocket) (stream_sid : pyval)
    (testing : bool) : PipelineTask :=
  let transport := make_transport websocket_client stream_sid in
  let llm := {| llm_api_key := getenv env "OPENAI_API_KEY";
                model := "gpt-4.1" |} in
  let stt := {| stt_api_key := getenv env "DEEPGRAM_API_KEY";
                audio_passthrough := true |} in
  let tts := {| tts_api_key := getenv env "ELEVENLABS_API_KEY";
                voice_id := getenv env "ELEVENLABS_VOICE_ID";
                push_silence_after_stop := true |} in
  let system_prompt :=
    if truthy SYSTEM_PROMPT then SYSTEM_PROMPT
    else PyStr default_system_prompt in
  let messages :=
    [ <[ "role" := PyStr "system" ]>
        (<[ "content" := system_prompt ]> (∅ : gmap string pyval)) ] in
  let context := {| messages := messages |} in
  let audiobuffer := {| user_continuous_stream := negb testing |} in
  {| pipeline :=
       [ TransportInput transport;
         STTStage stt;
         UserContextAggregator llm context;
         LLMStage llm;
         TTSStage tts;
         TransportOutput transport;
         AudioBufferStage audiobuffer;
         AssistantContextAggregator llm context ];
     task_params := {| audio_in_sample_rate := 16000;
                       audio_out_sample_rate := 16000;
                       allow_interruptions := true;
                       enable_metrics := true;
                       disable_buffers := true |} |}.

(** The constructors of lines 67-131 either raise ([setup_fault]) or
    yield the task; the three event handlers registered next (lines
    135-162) are run by the external runtime during [runner.run], and the
    one with code of its own, [on_audio_data], is embedded above. *)
Definition run_bot (websocket_client : WebSocket) (stream_sid : pyval)
    (testing : bool) : M unit :=
  (log INFO ("Initializing bot with stream_sid: " +:+ py_str repr stream_sid) ;;;
   match setup_fault rt with Some e => raise e | None => ret tt end ;;;
   let task := make_task websocket_client stream_sid testing in
   log DEBUG "Pipeline and services initialized successfully." ;;;
   let runner := {| handle_sigint := false; force_gc := true |} in
   try_except
     (call (RunnerRun runner task) (run_result rt) ;;;
      log INFO "Pipeline runner executed successfully.")
     (fun e => log ERROR ("Error during pipeline execution: " +:+ str_exc e)))%eff.
End RunBot.

End Bot.

(* ===================================================================== *)
(** * backend/app.py                                                      *)
(* ===================================================================== *)

Module App.

(** ** Start-up configuration (module level, lines 17-30) *)

Record RestClient : Type := {
  auth_id : pyval;
  auth_token : pyval
}.

Section Startup.
Variable repr : pyval -> string.
Variable env : gmap string string.
(** [plivo.RestClient(auth_id=..., auth_token=...)] checks the
    credentials it is given before it builds the client: the exception
    it raises when it refuses them. *)
Variable RestClient_refuses : pyval -> pyval -> option Exception.

Definition PLIVO_AUTH_ID : pyval := getenv env "PLIVO_AUTH_ID".
Definition PLIVO_AUTH_TOKEN : pyval := getenv env "PLIVO_AUTH_TOKEN".
Definition PLIVO_FROM_NUMBER : pyval :=
  getenv_default env "PLIVO_FROM_NUMBER" (PyInt 918035737766).
Definition PLIVO_TO_NUMBER : pyval :=
  getenv_default env "PLIVO_TO_NUMBER" (PyInt 919671454088).
Definition NGROK_URL : pyval := getenv env "NGROK_URL".
Definition PLIVO_ANSWER_XML : pyval :=
  py_or (getenv env "PLIVO_ANSWER_XML")
        (PyStr (py_str repr NGROK_URL +:+ "/webhook")).

Definition configured : bool :=
  py_all [PLIVO_AUTH_ID; PLIVO_AUTH_TOKEN; PLIVO_FROM_NUMBER;
          PLIVO_TO_NUMBER; PLIVO_ANSWER_XML].

(** The module-level [if not all([...])] that binds [plivo_client].
    An exception of the constructor leaves the module: the import fails
    and there is no application. *)
Definition startup : M (option RestClient) :=
  (log INFO "Loading environment variables from .env file" ;;;
   if negb configured then
     log ERROR "⚠️  Warning: Missing Plivo configuration. Outbound call initiation will not work." ;;;
     ret None
   else
     match RestClient_refuses PLIVO_AUTH_ID PLIVO_AUTH_TOKEN with
     | Some e => raise e
     | None => ret (Some {| auth_id := PLIVO_AUTH_ID;
                            auth_token := PLIVO_AUTH_TOKEN |})
     end)%eff.

(** The global [plivo_client] of a module that loaded: [None] when the
    check failed, the client built from the two credentials otherwise. *)
Definition plivo_client : option RestClient :=
  if negb configured then None
  else Some {| auth_id := PLIVO_AUTH_ID; auth_token := PLIVO_AUTH_TOKEN |}.
End Startup.

(** ** HTTP endpoints *)

Record Response : Type := {
  content : string;
  media_type : string
}.

Definition dict2 (k1 : string) (v1 : pyval) (k2 : string) (v2 : pyval)
    : pyval :=
  PyDict (<[ k1 := v1 ]> (<[ k2 := v2 ]> ∅)).

(** [GET /] *)
Definition root : M pyval :=
  (log INFO "Root endpoint accessed." ;;;
   ret (PyDict {[ "message" := PyStr "Voice Agent Server is up." ]}))%eff.

Definition dq : string := String (ascii_of_nat 34) EmptyString.
Definition nl : string := String (ascii_of_nat 10) EmptyString.

(** [POST /webhook] *)
Definition webhook_handler : M Response :=
  (log INFO "Webhook endpoint accessed." ;;;
   emit (Print "✅ Incoming call received from Plivo.") ;;;
   let response_xml :=
     "<?xml version=" +:+ dq +:+ "1.0" +:+ dq +:+ " encoding=" +:+ dq
     +:+ "UTF-8" +:+ dq +:+ "?>" +:+ nl
     +:+ "        <Speak>Connecting you to the voice assistant.</Speak>"
     +:+ nl +:+ "    " in
   log INFO "Generated response XML for webhook." ;;;
   ret {| content := response_xml; media_type := "application/xml" |})%eff.

Section StartCall.
Variable repr : pyval -> string.
Variable env : gmap string string.
(** What [plivo_client.calls.create(...)] does when it is reached: the
    provider's response object or the exception it raises. *)
Variable create_result : Exception + pyval.

(** [POST /start-call], for a given binding of [plivo_client] *)
Definition start_plivo_call_with (client : option RestClient) : M pyval :=
  (log INFO "Start call endpoint accessed." ;;;
   match client with
   | None =>
       log ERROR "Plivo client not configured." ;;;
       ret (dict2 "status" (PyStr "error")
                  "message" (PyStr "Plivo client not configured"))
   | Some _ =>
       try_except
         (response <- call (CallsCreate (PLIVO_FROM_NUMBER env)
                                        (PLIVO_TO_NUMBER env)
                                        (PLIVO_ANSWER_XML repr env)
                                        "POST")
                           create_result ;;
          uuid <- lift (py_getitem response "request_uuid") ;;
          log INFO ("Outbound call initiated successfully. Call UUID: "
                    +:+ py_str repr uuid) ;;;
          uuid' <- lift (py_getitem response "request_uuid") ;;
          ret (dict2 "status" (PyStr "success") "call_uuid" uuid'))
         (fun e =>
            log ERROR ("Error initiating outbound call: " +:+ str_exc e) ;;;
            ret (dict2 "status" (PyStr "error")
                       "message" (PyStr (str_exc e))))
   end)%eff.

(** The endpoint of the running server: [plivo_client] is the global
    bound at start-up. *)
Definition start_plivo_call : M pyval :=
  start_plivo_call_with (plivo_client repr env).
End StartCall.

(** ** The WebSocket endpoint [/stream] *)

Section Stream.
Variable repr : pyval -> string.
(** [json.loads]: the decoded value, or the exception it raises. *)
Variable json_loads : pyval -> Exception + pyval.
(** [from bot import run_bot] *)
Variable run_bot : WebSocket -> pyval -> bool -> M unit.

Definition websocket_endpoint (websocket : WebSocket) : M unit :=
  (log INFO "WebSocket endpoint accessed." ;;;
   emit WsAccept ;;;
   try_finally
     (try_except
        (message <- call WsReceive (receive websocket) ;;
         let textFromWebSocket := dict_get message "text" in
         if is_None textFromWebSocket then
           log WARNING "No text received from WebSocket."
         else
           data <- lift (json_loads textFromWebSocket) ;;
           event <- lift (py_getitem data "event") ;;
           if py_eq_str event "start" then
             start <- lift (py_getitem data "start") ;;
             stream_id <- lift (py_getitem start "streamId") ;;
             log INFO ("WebSocket connection accepted. Stream ID: "
                       +:+ py_str repr stream_id) ;;;
             run_bot websocket stream_id true
           else ret tt)
        (fun e =>
           log ERROR ("Error in WebSocket communication: " +:+ str_exc e)))
     (log INFO "WebSocket connection closed."))%eff.
End Stream.

(** The endpoint linked with bot.py, as the running server has it. *)
Definition stream_endpoint (repr : pyval -> string)
    (json_loads : pyval -> Exception + pyval) (env : gmap string string)
    (SYSTEM_PROMPT : pyval) (rt : Bot.BotRuntime) (websocket : WebSocket)
    : M unit :=
  websocket_endpoint repr json_loads
    (Bot.run_bot repr env SYSTEM_PROMPT rt) websocket.

(** The first message of a connection is malformed (no text payload,
    text that is not JSON, no [event] field) or announces an event other
    than ["start"]. *)
Definition not_a_start_message (json_loads : pyval -> Exception + pyval)
    (message : gmap string pyval) : Prop :=
  is_None (dict_get message "text") = true
  \/ (exists e, json_loads (dict_get message "text") = inl e)
  \/ (exists data e, json_loads (dict_get message "text") = inr data
                     /\ py_getitem data "event" = inl e)
  \/ (exists data ev, json_loads (dict_get message "text") = inr data
                      /\ py_getitem data "event" = inr ev
                      /\ py_eq_str ev "start" = false).

(** The first message is a text message whose JSON has [event] equal to
    ["start"] and a stream identifier at [start.streamId]. *)
Definition start_message (json_loads : pyval -> Exception + pyval)
    (message : gmap string pyval) (stream_id : pyval) : Prop :=
  is_None (dict_get message "text") = false
  /\ exists data start,
       json_loads (dict_get message "text") = inr data
       /\ py_getitem data "event" = inr (PyStr "start")
       /\ py_getitem data "start" = inr start
       /\ py_getitem start "streamId" = inr stream_id.

(** ** Routing *)

Inductive Method : Type := GET | POST | PUT | DELETE | HEAD | OPTIONS | PATCH.

Definition Method_eqb (a b : Method) : bool :=
  match a, b with
  | GET, GET | POST, POST | PUT, PUT | DELETE, DELETE
  | HEAD, HEAD | OPTIONS, OPTIONS | PATCH, PATCH => true
  | _, _ => false
  end.

Inductive Endpoint : Type :=
| ep_root | ep_webhook_handler | ep_start_plivo_call | ep_websocket_endpoint
| ep_openapi | ep_swagger_ui | ep_swagger_ui_redirect | ep_redoc.

Inductive RouteKind : Type :=
| HttpRoute (methods : list Method)
| WebSocketRoute.

Record Route : Type := {
  route_path : string;
  route_kind : RouteKind;
  endpoint : Endpoint
}.

(** The routes declared by the decorators of app.py, in source order. *)
Definition app_routes : list Route :=
  [ {| route_path := "/"; route_kind := HttpRoute [GET];
       endpoint := ep_root |};
    {| route_path := "/webhook"; route_kind := HttpRoute [POST];
       endpoint := ep_webhook_handler |};
    {| route_path := "/start-call"; route_kind := HttpRoute [POST];
       endpoint := ep_start_plivo_call |};
    {| route_path := "/stream"; route_kind := WebSocketRoute;
       endpoint := ep_websocket_endpoint |} ].

(** The documentation routes every [FastAPI()] application starts with.
    They are plain Starlette routes, which answer [HEAD] wherever they
    answer [GET]. *)
Definition fastapi_default_routes : list Route :=
  [ {| route_path := "/openapi.json"; route_kind := HttpRoute [GET; HEAD];
       endpoint := ep_openapi |};
    {| route_path := "/docs"; route_kind := HttpRoute [GET; HEAD];
       endpoint := ep_swagger_ui |};
    {| route_path := "/docs/oauth2-redirect";
       route_kind := HttpRoute [GET; HEAD];
       endpoint := ep_swagger_ui_redirect |};
    {| route_path := "/redoc"; route_kind := HttpRoute [GET; HEAD];
       endpoint := ep_redoc |} ].

Definition all_routes : list Route := fastapi_default_routes ++ app_routes.

Inductive Match : Type := NONE | PARTIAL | FULL.

(** The regular expression [^literal$] a route without path parameters
    is compiled to: [$] also matches before one newline that ends the
    path. *)
Definition path_regex_match (literal path : string) : bool :=
  String.eqb literal path || String.eqb (literal +:+ nl) path.

(** How a route matches an HTTP request.  All paths here are literal (no
    path parameters). *)
Definition matches (r : Route) (m : Method) (path : string) : Match :=
  match route_kind r with
  | WebSocketRoute => NONE
  | HttpRoute methods =>
      if path_regex_match (route_path r) path then
        if existsb (Method_eqb m) methods then FULL else PARTIAL
      else NONE
  end.

Definition is_FULL (x : Match) : bool :=
  match x with FULL => true | _ => false end.
Definition is_PARTIAL (x : Match) : bool :=
  match x with PARTIAL => true | _ => false end.
Definition is_NONE (x : Match) : bool :=
  match x with NONE => true | _ => false end.

Inductive Routed : Type :=
| Handled (e : Endpoint)
| MethodNotAllowed
| RedirectSlash
| NotFound.

(** [path.endswith("/")] *)
Fixpoint ends_with_slash (path : string) : bool :=
  match path with
  | EmptyString => false
  | String a EmptyString => Ascii.eqb a "/"
  | String _ t => ends_with_slash t
  end.

(** The router: the first full match handles the request, else a route
    that matches the path but not the method answers 405, else a route
    that matches the path with the trailing slash toggled redirects,
    else 404. *)
Definition route_request (routes : list Route) (m : Method) (path : string)
    : Routed :=
  match find (fun r => is_FULL (matches r m path)) routes with
  | Some r => Handled (endpoint r)
  | None =>
      match find (fun r => is_PARTIAL (matches r m path)) routes with
      | Some _ => MethodNotAllowed
      | None =>
          let alt := if ends_with_slash path then rstrip "/" path
                     else path +:+ "/" in
          if negb (String.eqb path "/") &&
             existsb (fun r => negb (is_NONE (matches r m alt))) routes
          then RedirectSlash
          else NotFound
      end
  end.


End App.

(* ===================================================================== *)
(** * backend/make_call.py                                                *)
(* ===================================================================== *)

Module MakeCall.

(** A [requests.Response]: status line, body text, and what [.json()]
    gives, the decoded body or the message of the decoding error. *)
Record HttpResponse : Type := {
  status_code : Z;
  reason : string;
  url : string;
  text : string;
  json_body : string + pyval
}.

(** [response.raise_for_status()]: an [HTTPError] carrying the response
    for 4xx and 5xx status codes, nothing otherwise. *)
Definition raise_for_status (r : HttpResponse) : Exception + unit :=
  if (400 <=? status_code r) && (status_code r <? 500) then
    inl (RequestException
           (str_int (status_code r) +:+ " Client Error: " +:+ reason r
            +:+ " for url: " +:+ url r)
           (Some (text r)))
  else if (500 <=? status_code r) && (status_code r <? 600) then
    inl (RequestException
           (str_int (status_code r) +:+ " Server Error: " +:+ reason r
            +:+ " for url: " +:+ url r)
           (Some (text r)))
  else inr tt.

(** [response.json()]: a body that is not JSON raises
    [requests.exceptions.JSONDecodeError], a [RequestException] without
    a response attached. *)
Definition response_json (r : HttpResponse) : Exception + pyval :=
  match json_body r with
  | inr v => inr v
  | inl msg => inl (RequestException msg None)
  end.

(** [e.response.text] when [e.response] is not [None] *)
Definition exc_response_text (e : Exception) : option string :=
  match e with
  | RequestException _ t => t
  | _ => None
  end.

(** [try: m  except requests.exceptions.RequestException as e: h e] *)
Definition try_except_request {A} (m : M A) (h : Exception -> M A) : M A :=
  match m with
  | (t, inl e) =>
      if is_RequestException e
      then let '(t', r) := h e in (t ++ t', r)
      else (t, inl e)
  | (t, inr a) => (t, inr a)
  end.

(** The path the caller appends to the server URL. *)
Definition call_path (phone_number : string) : string :=
  "/call/" +:+ phone_number.

(** ** The path of the request that reaches the server

    [requests] prepares a URL before it sends it: the path ends where
    the query ([?]) or the fragment ([#]) starts, and its dot segments
    are removed (RFC 3986, 5.2.4).  Characters that are not allowed in a
    path travel percent-encoded and are decoded by the server; a [%]
    that the caller typed is outside the model. *)
Fixpoint before_query (s : string) : string :=
  match s with
  | EmptyString => EmptyString
  | String a t =>
      if Ascii.eqb a "?" || Ascii.eqb a "#" then EmptyString
      else String a (before_query t)
  end.

(** One turn of the loop over the segments: ["."] is skipped, [".."]
    pops the last segment kept so far, if there is one. *)
Definition dot_step (output : list string) (segment : string) : list string :=
  if String.eqb segment "." then output
  else if String.eqb segment ".." then removelast output
  else output ++ [segment].

Definition remove_dot_segments (path : string) : string :=
  let output := fold_left dot_step (split "/" path) [] in
  let output :=
    if starts_with "/" path
       && match output with
          | [] => true
          | first :: _ => negb (String.eqb first "")
          end
    then EmptyString :: output else output in
  let output :=
    if ends_with_str "/." path || ends_with_str "/.." path
    then output ++ [EmptyString] else output in
  join "/" output.

(** The path the server routes when the caller asks for
    [<server_url>/call/<phone_number>] and the server URL is a bare
    origin ([scheme://host:port]). *)
Definition request_path (phone_number : string) : string :=
  remove_dot_segments (before_query (call_path phone_number)).

Section Cli.
Variable repr : pyval -> string.
Variable env : gmap string string.
(** [requests.post(url)]: the response, or the exception raised. *)
Variable requests_post : string -> Exception + HttpResponse.

Definition make_call (phone_number : string) (server_url : option string)
    : M pyval :=
  let server_url := default "http://localhost:8765" server_url in
  let server_url := rstrip "/" server_url in
  let target := server_url +:+ call_path phone_number in
  try_except_request
    (response <- call (HttpPost target) (requests_post target) ;;
     lift (raise_for_status response) ;;;
     lift (response_json response))%eff
    (fun e =>
       emit (Print ("Error making call: " +:+ str_exc e)) ;;;
       match exc_response_text e with
       | Some t => emit (Print ("Response: " +:+ t))
       | None => ret tt
       end ;;;
       ret PyNone)%eff.

(** [args.url or os.getenv("SERVER_URL", "http://localhost:8765")] *)
Definition chosen_server_url (url : option string) : option string :=
  match py_or (from_option PyStr PyNone url)
              (getenv_default env "SERVER_URL"
                 (PyStr "http://localhost:8765")) with
  | PyStr s => Some s
  | _ => None
  end.

(** [main()] for parsed arguments [phone_number] and [-u url]; the
    result is the status passed to [sys.exit], 0 when [main] falls off
    its end. *)
Definition main (phone_number : string) (url : option string) : M Z :=
  (let server_url := chosen_server_url url in
   result <- make_call phone_number server_url ;;
   if truthy result then
     call_sid <- lift (py_get result "call_sid") ;;
     emit (Print ("Call initiated successfully! Call SID: "
                  +:+ py_str repr call_sid)) ;;;
     ret 0
   else
     emit (Print "Failed to initiate call.") ;;;
     ret 1)%eff.

(** Exit status of the process: an exception that leaves [main]
    terminates the interpreter with status 1. *)
Definition exit_status (phone_number : string) (url : option string) : Z :=
  match outcome (main phone_number url) with
  | inr code => code
  | inl _ => 1
  end.

Definition stdout (phone_number : string) (url : option string)
    : list string :=
  omap (fun ev => match ev with Print l => Some l | _ => None end)
       (trace (main phone_number url)).

Definition posts (phone_number : string) (url : option string)
    : list string :=
  omap (fun ev => match ev with HttpPost u => Some u | _ => None end)
       (trace (main phone_number url)).
End Cli.

End MakeCall.

(* ===================================================================== *)
(** * Vocabulary of the properties                                        *)
(* ===================================================================== *)

Module StreamVocabulary.

(** The log records and events the [/stream] endpoint and [run_bot]
    produce, by name. *)
Definition opening : list event :=
  [Log INFO "WebSocket endpoint accessed."; WsAccept; WsReceive].
Definition closing : event := Log INFO "WebSocket connection closed.".
Definition no_text : event := Log WARNING "No text received from WebSocket.".
Definition comm_error (e : Exception) : event :=
  Log ERROR ("Error in WebSocket communication: " +:+ str_exc e).
Definition accepted (repr : pyval -> string) (stream_id : pyval) : event :=
  Log INFO ("WebSocket connection accepted. Stream ID: "
            +:+ py_str repr stream_id).
Definition pipeline_error (e : Exception) : event :=
  Log ERROR ("Error during pipeline execution: " +:+ str_exc e).
Definition bot_init (repr : pyval -> string) (stream_sid : pyval) : event :=
  Log INFO ("Initializing bot with stream_sid: " +:+ py_str repr stream_sid).
Definition bot_ready : event :=
  Log DEBUG "Pipeline and services initialized successfully.".
Definition bot_done : event :=
  Log INFO "Pipeline runner executed successfully.".
Definition the_runner : PipelineRunner :=
  {| handle_sigint := false; force_gc := true |}.

(** A bridged connection: the endpoint's own events around one run
    [bot] of the bridge, whose exception, if it raised, is logged. *)
Definition bridged (repr : pyval -> string) (stream_id : pyval)
    (bot : M unit) : M unit :=
  (opening ++ [accepted repr stream_id] ++ trace bot
   ++ match outcome bot with
      | inl e => [comm_error e]
      | inr _ => []
      end
   ++ [closing],
   inr tt).

Definition is_Log (ev : event) : bool :=
  match ev with Log _ _ => true | _ => false end.

(** Neither a message sent on the socket nor a pipeline run. *)
Definition silent (ev : event) : bool :=
  negb (is_WsSend ev) && negb (is_RunnerRun ev).

End StreamVocabulary.

Module CallVocabulary.
Import App.

(** The two shapes of the JSON body of [POST /start-call]. *)
Definition success_reply (call_uuid : pyval) : pyval :=
  dict2 "status" (PyStr "success") "call_uuid" call_uuid.

Definition error_reply (message : string) : pyval :=
  dict2 "status" (PyStr "error") "message" (PyStr message).

Definition structured_reply (v : pyval) : Prop :=
  (exists call_uuid, v = success_reply call_uuid)
  \/ (exists message, v = error_reply message).

Definition not_configured_reply : pyval :=
  error_reply "Plivo client not configured".

Definition start_call_log : event :=
  Log INFO "Start call endpoint accessed.".

(** The creation request the endpoint sends to the provider. *)
Definition create_request (repr : pyval -> string)
    (env : gmap string string) : event :=
  CallsCreate (PLIVO_FROM_NUMBER env) (PLIVO_TO_NUMBER env)
              (PLIVO_ANSWER_XML repr env) "POST".

(** An environment variable that is not set, or set to the empty
    string. *)
Definition unset_or_empty (env : gmap string string) (k : string) : Prop :=
  env !! k = None \/ env !! k = Some EmptyString.

Definition blank (env : gmap string string) (k : string) : Prop :=
  env !! k = Some EmptyString.

End CallVocabulary.

Module CliVocabulary.
Import MakeCall.

(** The URL the caller posts to, for the parsed arguments and the
    environment. *)
Definition target (env : gmap string string) (phone_number : string)
    (url : option string) : string :=
  rstrip "/" (default "http://localhost:8765" (chosen_server_url env url))
  +:+ call_path phone_number.

(** The request failed: [requests.post] raised a [RequestException]
    (connection error, invalid URL, ...), the status is 4xx or 5xx, or
    the body is not JSON. *)
Definition request_failed (outcome : Exception + HttpResponse)
    (e : Exception) : Prop :=
  (outcome = inl e /\ is_RequestException e = true)
  \/ (exists r, outcome = inr r /\ raise_for_status r = inl e)
  \/ (exists r, outcome = inr r /\ raise_for_status r = inr tt
                /\ response_json r = inl e).

(** What the caller prints on a failed request. *)
Definition failure_output (e : Exception) : list string :=
  ["Error making call: " +:+ str_exc e]
  ++ match exc_response_text e with
     | Some t => ["Response: " +:+ t]
     | None => []
     end
  ++ ["Failed to initiate call."].

Definition success_output (repr : pyval -> string) (call_sid : pyval)
    : list string :=
  ["Call initiated successfully! Call SID: " +:+ py_str repr call_sid].




End CliVocabulary.

(** Concrete inputs on which the properties are exercised. *)
Module Samples.

Definition no_repr : pyval -> string := fun _ => EmptyString.

Definition start_frame : pyval :=
  PyDict (<[ "event" := PyStr "start" ]>
            (<[ "start" := PyDict {[ "streamId" := PyStr "s-42" ]} ]> ∅)).

Definition stop_frame : pyval := PyDict {[ "event" := PyStr "stop" ]}.

Definition text_message : gmap string pyval :=
  {[ "text" := PyStr "frame" ]}.

Definition socket : WebSocket :=
  {| client_port := 50000; receive := inr text_message |}.


Definition failing_run : Bot.BotRuntime :=
  {| Bot.setup_fault := None;
     Bot.run_result := inl (Raised "RuntimeError" "stt connection lost") |}.

Definition clean_run : Bot.BotRuntime :=
  {| Bot.setup_fault := None; Bot.run_result := inr tt |}.

(** Both credentials set, the from-number set to the empty string. *)
Definition env_blank_from_number : gmap string string :=
  <[ "PLIVO_AUTH_ID" := "MANJK3ZTE0MDQ1OWVHYT" ]>
    (<[ "PLIVO_AUTH_TOKEN" := "secret" ]>
       (<[ "PLIVO_FROM_NUMBER" := "" ]> ∅)).

(** Only the two credentials set. *)
Definition env_credentials_only : gmap string string :=
  <[ "PLIVO_AUTH_ID" := "MANJK3ZTE0MDQ1OWVHYT" ]>
    (<[ "PLIVO_AUTH_TOKEN" := "secret" ]> ∅).

(** The token missing. *)
Definition env_no_token : gmap string string :=
  <[ "PLIVO_AUTH_ID" := "MANJK3ZTE0MDQ1OWVHYT" ]> ∅.

(** A constructor that takes the credentials it is given, and one that
    refuses them. *)
Definition accepting : pyval -> pyval -> option Exception :=
  fun _ _ => None.

Definition refusing : pyval -> pyval -> option Exception :=
  fun auth_id _ =>
    Some (Raised "AuthenticationError"
            ("Invalid auth_id supplied: " +:+ py_str no_repr auth_id)).

(** 4 November 2026, 09:05:07.250000 *)
Definition clock : Bot.datetime :=
  {| Bot.year := 2026; Bot.month := 11; Bot.day := 4;
     Bot.hour := 9; Bot.minute := 5; Bot.second := 7;
     Bot.microsecond := 250000 |}.

Definition backend_dir : Bot.Path := ["srv"; "agent"; "backend"].

Definition empty_disk : Bot.filesystem :=
  {| Bot.dirs := ∅; Bot.files := ∅ |}.

(** Two 16-bit samples. *)
Definition two_samples : list byte := [x01; x00; x02; x00].

(** A 200 reply whose JSON body is the empty object. *)
Definition empty_object_reply : MakeCall.HttpResponse :=
  {| MakeCall.status_code := 200; MakeCall.reason := "OK";
     MakeCall.url := "http://localhost:8765/call/15551234567";
     MakeCall.text := "{}";
     MakeCall.json_body := inr (PyDict ∅) |}.

(** A 200 reply carrying a call identifier under [call_sid]. *)
Definition call_sid_reply : MakeCall.HttpResponse :=
  {| MakeCall.status_code := 200; MakeCall.reason := "OK";
     MakeCall.url := "http://localhost:8765/call/15551234567";
     MakeCall.text := "";
     MakeCall.json_body := inr (PyDict {[ "call_sid" := PyStr "CA77" ]}) |}.

(** A 200 reply shaped like the body of this server's [/start-call]. *)
Definition call_uuid_reply : MakeCall.HttpResponse :=
  {| MakeCall.status_code := 200; MakeCall.reason := "OK";
     MakeCall.url := "http://localhost:8765/call/15551234567";
     MakeCall.text := "";
     MakeCall.json_body :=
       inr (App.dict2 "status" (PyStr "success")
                      "call_uuid" (PyStr "abc-123")) |}.

(** A 300 reply (no redirect target) that carries a JSON object. *)
Definition multiple_choices_reply : MakeCall.HttpResponse :=
  {| MakeCall.status_code := 300; MakeCall.reason := "Multiple Choices";
     MakeCall.url := "http://localhost:8765/call/15551234567";
     MakeCall.text := "";
     MakeCall.json_body := inr (PyDict {[ "call_sid" := PyStr "CA77" ]}) |}.

(** The 404 reply of the framework. *)
Definition not_found_reply : MakeCall.HttpResponse :=
  {| MakeCall.status_code := 404; MakeCall.reason := "Not Found";
     MakeCall.url := "http://localhost:8765/call/15551234567";
     MakeCall.text := "not found";
     MakeCall.json_body := inr (PyDict {[ "detail" := PyStr "Not Found" ]}) |}.

Definition provider_response : pyval :=
  PyDict (<[ "request_uuid" := PyStr "abc-123" ]>
            (<[ "message" := PyStr "call fired" ]> ∅)).

End Samples.

Module AudioVocabulary.
Import Wave.

(** The 44-byte canonical header followed by the samples: what a WAV
    file of [nch] channels of 16-bit samples at [rate] frames per second
    looks like. *)
Definition wav_header (nch rate data_length : Z) : list byte :=
  RIFF ++ le_bytes 4 (36 + data_length) ++ WAVE ++ fmt_ ++ le_bytes 4 16
  ++ le_bytes 2 WAVE_FORMAT_PCM ++ le_bytes 2 nch ++ le_bytes 4 rate
  ++ le_bytes 4 (nch * rate * 2) ++ le_bytes 2 (nch * 2) ++ le_bytes 2 16
  ++ data ++ le_bytes 4 data_length.

Definition canonical_wav (nch rate : Z) (audio : list byte) : list byte :=
  wav_header nch rate (Z.of_nat (length audio)) ++ audio.

(** Parameters that fit the fields of the header: at least one and at
    most 32767 channels (the block size [2 * nch] is a 16-bit field), a
    positive rate whose byte rate [2 * nch * rate] is a 32-bit number,
    and a payload that leaves room for the 36 header bytes counted in
    the 32-bit form length. *)
Definition encodable (audio : list byte) (sample_rate num_channels : Z)
    : Prop :=
  1 <= num_channels <= 32767
  /\ 1 <= sample_rate
  /\ 2 * num_channels * sample_rate < 2 ^ 32
  /\ Z.of_nat (length audio) + 36 < 2 ^ 32.


(** Two clock readings within the same second. *)
Definition same_second (a b : Bot.datetime) : Prop :=
  Bot.year a = Bot.year b /\ Bot.month a = Bot.month b
  /\ Bot.day a = Bot.day b /\ Bot.hour a = Bot.hour b
  /\ Bot.minute a = Bot.minute b /\ Bot.second a = Bot.second b.

End AudioVocabulary.


(* ===================================================================== *)
(** * Further vocabulary: sockets, pipelines, clocks, URLs                *)
(* ===================================================================== *)

Module MoreVocabulary.

(** An operation on the WebSocket itself. *)
Definition is_socket_op (ev : event) : bool :=
  match ev with
  | WsAccept | WsReceive | WsSend _ | WsClose => true
  | _ => false
  end.

(** The conversation context a stage works on, for the two aggregators. *)
Definition stage_context (p : FrameProcessor) : option OpenAILLMContext :=
  match p with
  | UserContextAggregator _ c | AssistantContextAggregator _ c => Some c
  | _ => None
  end.

(** The audio buffer of a stage, if the stage is one. *)
Definition stage_audiobuffer (p : FrameProcessor)
    : option AudioBufferProcessor :=
  match p with
  | AudioBufferStage a => Some a
  | _ => None
  end.

(** The single message a context is seeded with. *)
Definition system_message (content : pyval) : gmap string pyval :=
  <[ "role" := PyStr "system" ]> (<[ "content" := content ]> ∅).

(** A clock reading whose fields are within their calendar ranges. *)
Definition calendar (d : Bot.datetime) : Prop :=
  1 <= Bot.year d <= 9999 /\ 1 <= Bot.month d <= 12
  /\ 1 <= Bot.day d <= 31 /\ 0 <= Bot.hour d <= 23
  /\ 0 <= Bot.minute d <= 59 /\ 0 <= Bot.second d <= 59.

(** Reading a stamp back: the value of a decimal digit and of groups of
    two and four digits. *)
Definition digit_value (a : ascii) : Z := Z.of_nat (nat_of_ascii a) - 48.

Definition read2 (s : string) : option (Z * string) :=
  match s with
  | String a (String b r) => Some (10 * digit_value a + digit_value b, r)
  | _ => None
  end.

Definition read4 (s : string) : option (Z * string) :=
  match read2 s with
  | Some (hi, r) =>
      match read2 r with
      | Some (lo, r') => Some (100 * hi + lo, r')
      | None => None
      end
  | None => None
  end.

(** The six fields of a [YYYYMMDD_HHMMSS] stamp. *)
Definition read_stamp (s : string) : option (Z * Z * Z * Z * Z * Z) :=
  match read4 s with
  | Some (y, r1) =>
      match read2 r1 with
      | Some (mo, r2) =>
          match read2 r2 with
          | Some (d, String sep r3) =>
              match read2 r3 with
              | Some (h, r4) =>
                  match read2 r4 with
                  | Some (mi, r5) =>
                      match read2 r5 with
                      | Some (s, EmptyString) =>
                          if Ascii.eqb sep "_"
                          then Some (y, mo, d, h, mi, s)
                          else None
                      | _ => None
                      end
                  | None => None
                  end
              | None => None
              end
          | _ => None
          end
      | None => None
      end
  | None => None
  end.

(** [k] slashes. *)
Fixpoint slashes (k : nat) : string :=
  match k with
  | O => EmptyString
  | S k' => String "/" (slashes k')
  end.

(** [s.endswith(c)] *)
Fixpoint ends_with (c : ascii) (s : string) : bool :=
  match s with
  | EmptyString => false
  | String a EmptyString => Ascii.eqb a c
  | String _ t => ends_with c t
  end.

Definition is_dict (v : pyval) : bool :=
  match v with PyDict _ => true | _ => false end.

(** The HTTP routes of the application, as (method, path, endpoint). *)
Definition http_table : list (App.Method * string * App.Endpoint) :=
  [ (App.GET, "/openapi.json", App.ep_openapi);
    (App.HEAD, "/openapi.json", App.ep_openapi);
    (App.GET, "/docs", App.ep_swagger_ui);
    (App.HEAD, "/docs", App.ep_swagger_ui);
    (App.GET, "/docs/oauth2-redirect", App.ep_swagger_ui_redirect);
    (App.HEAD, "/docs/oauth2-redirect", App.ep_swagger_ui_redirect);
    (App.GET, "/redoc", App.ep_redoc);
    (App.HEAD, "/redoc", App.ep_redoc);
    (App.GET, "/", App.ep_root);
    (App.POST, "/webhook", App.ep_webhook_handler);
    (App.POST, "/start-call", App.ep_start_plivo_call) ].

End MoreVocabulary.

(** More concrete inputs. *)
Module MoreSamples.

(** A frame that announces a start but carries no [start] object. *)
Definition start_without_id : pyval :=
  PyDict {[ "event" := PyStr "start" ]}.

(** A provider response without [request_uuid]. *)
Definition response_without_uuid : pyval :=
  PyDict {[ "message" := PyStr "call fired" ]}.


(** One second after [Samples.clock]. *)
Definition clock_next : Bot.datetime :=
  {| Bot.year := 2026; Bot.month := 11; Bot.day := 4;
     Bot.hour := 9; Bot.minute := 5; Bot.second := 8;
     Bot.microsecond := 0 |}.


(** A 200 reply whose JSON body is a non-empty list. *)
Definition list_reply : MakeCall.HttpResponse :=
  {| MakeCall.status_code := 200; MakeCall.reason := "OK";
     MakeCall.url := "http://localhost:8765/call/15551234567";
     MakeCall.text := "[1]";
     MakeCall.json_body := inr (PyList [PyInt 1]) |}.

(** A 200 reply whose JSON body is [null]. *)
Definition null_reply : MakeCall.HttpResponse :=
  {| MakeCall.status_code := 200; MakeCall.reason := "OK";
     MakeCall.url := "http://localhost:8765/call/15551234567";
     MakeCall.text := "null";
     MakeCall.json_body := inr PyNone |}.


End MoreSamples.

Module CliMoreVocabulary.
Import MakeCall.

(** What [make_call] prints when it catches a request failure. *)
Definition error_lines (e : Exception) : list string :=
  ["Error making call: " +:+ str_exc e]
  ++ match exc_response_text e with
     | Some t => ["Response: " +:+ t]
     | None => []
     end.

(** The lines a computation prints. *)
Definition printed {A} (m : M A) : list string :=
  omap (fun ev => match ev with Print l => Some l | _ => None end) (trace m).

(** The request succeeded and delivered the JSON value [v]. *)
Definition delivered (outcome : Exception + HttpResponse) (v : pyval) : Prop :=
  exists r, outcome = inr r /\ raise_for_status r = inr tt
            /\ json_body r = inr v.

End CliMoreVocabulary.

(* ===================================================================== *)
(** * The embedded functions on concrete inputs                           *)
(* ===================================================================== *)

Module Sanity.
Import App MakeCall CliVocabulary.

Example rstrip_trailing_slashes :
  rstrip "/" "http://host:8765//" = "http://host:8765"
  /\ rstrip "/" "///" = "" /\ rstrip "/" "a/b" = "a/b".
Proof. repeat split. Qed.

Example str_int_decimal : str_int (-5) = "-5" /\ str_int 918035737766 = "918035737766".
Proof. split; reflexivity. Qed.

Example getitem_cases :
  py_getitem Samples.start_frame "event" = inr (PyStr "start")
  /\ py_getitem Samples.stop_frame "start" = inl (KeyError "start")
  /\ py_getitem (PyInt 3) "event"
     = inl (TypeError "'int' object is not subscriptable")
  /\ str_exc (KeyError "event") = "'event'".
Proof. repeat split. Qed.

Example truthiness :
  truthy (PyDict ∅) = false /\ truthy (PyStr "") = false
  /\ truthy (PyInt 918035737766) = true /\ truthy PyNone = false
  /\ truthy Samples.stop_frame = true.
Proof. repeat split. Qed.

Example routing_cases :
  route_request all_routes POST "/start-call" = Handled ep_start_plivo_call
  /\ route_request all_routes GET "/start-call" = MethodNotAllowed
  /\ route_request all_routes POST "/webhook/" = RedirectSlash
  /\ route_request all_routes GET "/stream" = NotFound
  /\ route_request all_routes GET "/" = Handled ep_root
  /\ route_request all_routes POST "/call/15551234567" = NotFound.
Proof. repeat split. Qed.

Example little_endian_fields :
  Wave.le_bytes 4 16000 = [x80; x3e; x00; x00]
  /\ Wave.le_value [x80; x3e; x00; x00] = 16000
  /\ Wave.pack_uint 2 65536 = inl (StructError "argument out of range").
Proof. repeat split. Qed.

Example wav_of_two_samples :
  AudioVocabulary.canonical_wav 1 16000 Samples.two_samples
  = [x52; x49; x46; x46;  x28; x00; x00; x00;  x57; x41; x56; x45;
     x66; x6d; x74; x20;  x10; x00; x00; x00;  x01; x00;  x01; x00;
     x80; x3e; x00; x00;  x00; x7d; x00; x00;  x02; x00;  x10; x00;
     x64; x61; x74; x61;  x04; x00; x00; x00;  x01; x00; x02; x00].
Proof. reflexivity. Qed.

Example odd_length_audio_is_patched :
  Bot.encode_wav [x01; x00; x02] 8000 2
  = (None,
     Wave.mkWave 2 2 8000 0 0 3 3 true 4 40
       (AudioVocabulary.canonical_wav 2 8000 [x01; x00; x02])).
Proof. reflexivity. Qed.

Example chosen_urls :
  target ∅ "15551234567" None = "http://localhost:8765/call/15551234567"
  /\ target {[ "SERVER_URL" := "http://agent:9000/" ]} "15551234567" None
     = "http://agent:9000/call/15551234567"
  /\ target {[ "SERVER_URL" := "http://agent:9000/" ]} "15551234567"
       (Some "https://x.example")
     = "https://x.example/call/15551234567"
  /\ target ∅ "15551234567" (Some "")
     = "http://localhost:8765/call/15551234567".
Proof. repeat split. Qed.

Example answer_url_defaults :
  PLIVO_ANSWER_XML Samples.no_repr ∅ = PyStr "None/webhook"
  /\ PLIVO_ANSWER_XML Samples.no_repr {[ "NGROK_URL" := "https://t.example" ]}
     = PyStr "https://t.example/webhook"
  /\ PLIVO_ANSWER_XML Samples.no_repr {[ "PLIVO_ANSWER_XML" := "https://a.example/x" ]}
     = PyStr "https://a.example/x".
Proof. repeat split. Qed.

Example joinpath_cases :
  let recordings := ["srv"; "agent"; "recordings"] in
  Bot.joinpath recordings "server_1.wav"
  = ["srv"; "agent"; "recordings"; "server_1.wav"]
  /\ Bot.joinpath recordings "./server_1.wav"
     = ["srv"; "agent"; "recordings"; "server_1.wav"]
  /\ Bot.joinpath recordings "a//b.wav"
     = ["srv"; "agent"; "recordings"; "a"; "b.wav"]
  /\ Bot.joinpath recordings "../x.wav"
     = ["srv"; "agent"; "recordings"; ".."; "x.wav"]
  /\ Bot.joinpath recordings "/tmp/x.wav" = ["tmp"; "x.wav"]
  /\ Bot.joinpath ["srv"; "agent"] "recordings" = recordings.
Proof. repeat split. Qed.

Example split_and_join :
  split "/" "/call/15551234567" = [""; "call"; "15551234567"]
  /\ split "/" "" = [""]
  /\ split "/" "a//b/" = ["a"; ""; "b"; ""]
  /\ join "/" [""; "call"; "15551234567"] = "/call/15551234567"
  /\ join "/" [""; ""] = "/".
Proof. repeat split. Qed.

Example dot_segments_removed :
  MakeCall.remove_dot_segments "/a/b/c/./../../g" = "/a/g"
  /\ MakeCall.remove_dot_segments "mid/content=5/../6" = "mid/6"
  /\ MakeCall.remove_dot_segments "/call/../start-call" = "/start-call"
  /\ MakeCall.remove_dot_segments "/call/.." = "/"
  /\ MakeCall.remove_dot_segments "/call/." = "/call/"
  /\ MakeCall.remove_dot_segments "/call/+15551234567" = "/call/+15551234567"
  /\ MakeCall.before_query "/call/1555?x=1#top" = "/call/1555".
Proof. repeat split. Qed.

Example regex_end_of_path :
  App.path_regex_match "/docs" "/docs" = true
  /\ App.path_regex_match "/docs" ("/docs" +:+ App.nl) = true
  /\ App.path_regex_match "/docs" ("/docs" +:+ App.nl +:+ App.nl) = false
  /\ App.path_regex_match "/docs" "/docs/" = false.
Proof. repeat split. Qed.

End Sanity.

(* ===================================================================== *)
(** * Facts about strings                                                 *)
(* ===================================================================== *)

Module TextFacts.

Lemma length_append_string (a b : string) :
  String.length (a +:+ b) = (String.length a + String.length b)%nat.
Proof.
  induction a as [| c a IH]; [reflexivity |].
  change (String c a +:+ b) with (String c (a +:+ b)).
  cbn [String.length]. by rewrite IH.
Qed.



End TextFacts.

(* ===================================================================== *)
(** * Properties of the [/stream] endpoint and of the bridge              *)
(* ===================================================================== *)

Module StreamSpec.
Import App StreamVocabulary.

Section Handler.
Variable repr : pyval -> string.
Variable json_loads : pyval -> Exception + pyval.
Variable run_bot : WebSocket -> pyval -> bool -> M unit.

Lemma endpoint_receive_raises ws e :
  receive ws = inl e ->
  websocket_endpoint repr json_loads run_bot ws
  = (opening ++ [comm_error e; closing], inr tt).
Proof.
  intros H. unfold websocket_endpoint. rewrite H. reflexivity.
Qed.

Lemma endpoint_no_text ws message :
  receive ws = inr message ->
  is_None (dict_get message "text") = true ->
  websocket_endpoint repr json_loads run_bot ws
  = (opening ++ [Log WARNING "No text received from WebSocket."; closing],
     inr tt).
Proof.
  intros H Hn. unfold websocket_endpoint. rewrite H. cbn.
  rewrite Hn. reflexivity.
Qed.

Lemma endpoint_json_raises ws message e :
  receive ws = inr message ->
  is_None (dict_get message "text") = false ->
  json_loads (dict_get message "text") = inl e ->
  websocket_endpoint repr json_loads run_bot ws
  = (opening ++ [comm_error e; closing], inr tt).
Proof.
  intros H Hn Hj. unfold websocket_endpoint. rewrite H. cbn.
  rewrite Hn, Hj. reflexivity.
Qed.

Lemma endpoint_no_event ws message data e :
  receive ws = inr message ->
  is_None (dict_get message "text") = false ->
  json_loads (dict_get message "text") = inr data ->
  py_getitem data "event" = inl e ->
  websocket_endpoint repr json_loads run_bot ws
  = (opening ++ [comm_error e; closing], inr tt).
Proof.
  intros H Hn Hj He. unfold websocket_endpoint. rewrite H. cbn.
  rewrite Hn, Hj. cbn. unfold lift. rewrite He. reflexivity.
Qed.

Lemma endpoint_other_event ws message data ev :
  receive ws = inr message ->
  is_None (dict_get message "text") = false ->
  json_loads (dict_get message "text") = inr data ->
  py_getitem data "event" = inr ev ->
  py_eq_str ev "start" = false ->
  websocket_endpoint repr json_loads run_bot ws
  = (opening ++ [closing], inr tt).
Proof.
  intros H Hn Hj He Hs. unfold websocket_endpoint. rewrite H. cbn.
  rewrite Hn, Hj. cbn. unfold lift. rewrite He. cbn. rewrite Hs.
  reflexivity.
Qed.

Lemma endpoint_start_no_id ws message data e :
  receive ws = inr message ->
  is_None (dict_get message "text") = false ->
  json_loads (dict_get message "text") = inr data ->
  py_getitem data "event" = inr (PyStr "start") ->
  (py_getitem data "start" = inl e
   \/ exists start, py_getitem data "start" = inr start
                    /\ py_getitem start "streamId" = inl e) ->
  websocket_endpoint repr json_loads run_bot ws
  = (opening ++ [comm_error e; closing], inr tt).
Proof.
  intros H Hn Hj He Hs. unfold websocket_endpoint. rewrite H. cbn.
  rewrite Hn, Hj. cbn. unfold lift. rewrite He. cbn.
  destruct Hs as [Hs | (start & Hs & Hi)].
  - rewrite Hs. reflexivity.
  - rewrite Hs. cbn. rewrite Hi. reflexivity.
Qed.

Lemma endpoint_start ws message stream_id :
  receive ws = inr message ->
  start_message json_loads message stream_id ->
  websocket_endpoint repr json_loads run_bot ws
  = bridged repr stream_id (run_bot ws stream_id true).
Proof.
  intros H (Hn & data & start & Hj & He & Hs & Hi).
  unfold websocket_endpoint, bridged. rewrite H. cbn.
  rewrite Hn, Hj. cbn. unfold lift. rewrite He. cbn.
  rewrite Hs. cbn. rewrite Hi. cbn.
  destruct (run_bot ws stream_id true) as [t [e | []]]; cbn.
  - rewrite <- app_assoc. reflexivity.
  - reflexivity.
Qed.
End Handler.

Section Bridge.
Variable repr : pyval -> string.
Variable env : gmap string string.
Variable SYSTEM_PROMPT : pyval.
Variable rt : Bot.BotRuntime.

Local Abbreviation run_bot := (Bot.run_bot repr env SYSTEM_PROMPT rt).
Local Abbreviation make_task := (Bot.make_task env SYSTEM_PROMPT).

Lemma run_bot_setup_raises ws sid testing e :
  Bot.setup_fault rt = Some e ->
  run_bot ws sid testing = ([bot_init repr sid], inl e).
Proof. intros H. unfold Bot.run_bot. rewrite H. reflexivity. Qed.

Lemma run_bot_run_raises ws sid testing e :
  Bot.setup_fault rt = None ->
  Bot.run_result rt = inl e ->
  run_bot ws sid testing
  = ([bot_init repr sid; bot_ready;
      RunnerRun the_runner (make_task ws sid testing);
      pipeline_error e], inr tt).
Proof.
  intros H1 H2. unfold Bot.run_bot. rewrite H1, H2. reflexivity.
Qed.

Lemma run_bot_run_returns ws sid testing u :
  Bot.setup_fault rt = None ->
  Bot.run_result rt = inr u ->
  run_bot ws sid testing
  = ([bot_init repr sid; bot_ready;
      RunnerRun the_runner (make_task ws sid testing);
      bot_done], inr tt).
Proof.
  intros H1 H2. unfold Bot.run_bot. rewrite H1, H2. reflexivity.
Qed.

Lemma run_bot_runs_its_task ws sid testing runner task :
  In (RunnerRun runner task) (trace (run_bot ws sid testing)) ->
  runner = the_runner /\ task = make_task ws sid testing.
Proof.
  destruct (Bot.setup_fault rt) as [e |] eqn:Hs.
  - rewrite (run_bot_setup_raises _ _ _ _ Hs). cbn.
    intros [H | []]. discriminate H.
  - destruct (Bot.run_result rt) as [e | u] eqn:Hr.
    + rewrite (run_bot_run_raises _ _ _ _ Hs Hr). cbn.
      intros [H | [H | [H | [H | []]]]]; try discriminate H.
      injection H as <- <-. split; reflexivity.
    + rewrite (run_bot_run_returns _ _ _ _ Hs Hr). cbn.
      intros [H | [H | [H | [H | []]]]]; try discriminate H.
      injection H as <- <-. split; reflexivity.
Qed.
End Bridge.


(** C1.  When the first message of a [/stream] connection is a text
    message whose JSON has [event] equal to ["start"], the endpoint runs
    the bridge exactly once, on the socket, on the value found at
    [start.streamId] of that message, passed as it is, and with
    [testing] set; in the linked server the serializer of the pipeline
    that is run carries that same value. *)
Theorem stream_id_reaches_bridge_unchanged :
  forall repr json_loads ws message stream_id,
    receive ws = inr message ->
    start_message json_loads message stream_id ->
    (forall run_bot,
        websocket_endpoint repr json_loads run_bot ws
        = bridged repr stream_id (run_bot ws stream_id true))
    /\ (forall env SYSTEM_PROMPT rt runner task tr,
           In (RunnerRun runner task)
              (trace (stream_endpoint repr json_loads env SYSTEM_PROMPT rt ws)) ->
           In tr (omap stage_transport (pipeline task)) ->
           serializer (params tr) = PlivoFrameSerializer stream_id
           /\ websocket tr = ws).
Proof.
  intros repr json_loads ws message stream_id Hr Hsm. split.
  - intros run_bot. by apply endpoint_start with message.
  - intros env SP rt runner task tr Hin Htr.
    unfold stream_endpoint in Hin.
    rewrite (endpoint_start _ _ _ _ _ _ Hr Hsm) in Hin.
    unfold bridged in Hin. cbn in Hin.
    destruct Hin as [Hin | [Hin | [Hin | [Hin | Hin]]]];
      try discriminate Hin.
    apply in_app_or in Hin as [Hin | Hin].
    + apply run_bot_runs_its_task in Hin as [_ ->].
      cbn in Htr. destruct Htr as [<- | [<- | []]]; by split.
    + apply in_app_or in Hin as [Hin | [Hin | []]]; [| discriminate Hin].
      destruct (outcome _); [destruct Hin as [Hin | []] | destruct Hin];
        discriminate Hin.
Qed.

Lemma stream_id_reaches_bridge_unchanged_witness :
  receive Samples.socket = inr Samples.text_message
  /\ start_message (fun _ => inr Samples.start_frame) Samples.text_message
       (PyStr "s-42")
  /\ websocket_endpoint Samples.no_repr (fun _ => inr Samples.start_frame)
       (Bot.run_bot Samples.no_repr ∅ PyNone Samples.clean_run)
       Samples.socket
     = bridged Samples.no_repr (PyStr "s-42")
         (Bot.run_bot Samples.no_repr ∅ PyNone Samples.clean_run
            Samples.socket (PyStr "s-42") true).
Proof.
  assert (receive Samples.socket = inr Samples.text_message) as Hr
    by reflexivity.
  assert (start_message (fun _ => inr Samples.start_frame)
            Samples.text_message (PyStr "s-42")) as Hs.
  { split; [reflexivity |].
    exists Samples.start_frame, (PyDict {[ "streamId" := PyStr "s-42" ]}).
    repeat split; vm_compute; reflexivity. }
  split; [exact Hr |]. split; [exact Hs |].
  exact (proj1 (stream_id_reaches_bridge_unchanged Samples.no_repr
                  (fun _ => inr Samples.start_frame) Samples.socket
                  Samples.text_message (PyStr "s-42") Hr Hs)
           (Bot.run_bot Samples.no_repr ∅ PyNone Samples.clean_run)).
Defined.

(** C2.  When the first message of a [/stream] connection is malformed
    (no text payload, text that is not JSON, no [event] field) or its
    event is not ["start"], the endpoint returns without running the
    bridge: whatever [run_bot] is, the run consists of the accept, the
    one receive and log records, ends with the closing record, runs no
    pipeline and sends no message on the socket. *)
Theorem malformed_first_message_never_bridges :
  forall repr json_loads ws message,
    receive ws = inr message ->
    not_a_start_message json_loads message ->
    exists notes,
      forallb is_Log notes = true
      /\ forall run_bot,
          websocket_endpoint repr json_loads run_bot ws
          = (opening ++ notes ++ [closing], inr tt)
          /\ forallb silent
               (trace (websocket_endpoint repr json_loads run_bot ws)) = true.
Proof.
  intros repr json_loads ws message Hr
    [Hn | [(e & Hj) | [(data & e & Hj & He) | (data & ev & Hj & He & Hs)]]].
  - exists [no_text]. split; [reflexivity |]. intros run_bot.
    rewrite (endpoint_no_text _ _ _ _ _ Hr Hn). by split.
  - destruct (is_None (dict_get message "text")) eqn:Hn.
    + exists [no_text]. split; [reflexivity |]. intros run_bot.
      rewrite (endpoint_no_text _ _ _ _ _ Hr Hn). by split.
    + exists [comm_error e]. split; [reflexivity |]. intros run_bot.
      rewrite (endpoint_json_raises _ _ _ _ _ _ Hr Hn Hj). by split.
  - destruct (is_None (dict_get message "text")) eqn:Hn.
    + exists [no_text]. split; [reflexivity |]. intros run_bot.
      rewrite (endpoint_no_text _ _ _ _ _ Hr Hn). by split.
    + exists [comm_error e]. split; [reflexivity |]. intros run_bot.
      rewrite (endpoint_no_event _ _ _ _ _ _ _ Hr Hn Hj He). by split.
  - destruct (is_None (dict_get message "text")) eqn:Hn.
    + exists [no_text]. split; [reflexivity |]. intros run_bot.
      rewrite (endpoint_no_text _ _ _ _ _ Hr Hn). by split.
    + exists []. split; [reflexivity |]. intros run_bot.
      rewrite (endpoint_other_event _ _ _ _ _ _ _ Hr Hn Hj He Hs). by split.
Qed.

Lemma malformed_first_message_never_bridges_witness :
  receive Samples.socket = inr Samples.text_message
  /\ not_a_start_message (fun _ => inr Samples.stop_frame)
       Samples.text_message
  /\ exists notes,
      forallb is_Log notes = true
      /\ forall run_bot,
          websocket_endpoint Samples.no_repr
            (fun _ => inr Samples.stop_frame) run_bot Samples.socket
          = (opening ++ notes ++ [closing], inr tt)
          /\ forallb silent
               (trace (websocket_endpoint Samples.no_repr
                         (fun _ => inr Samples.stop_frame) run_bot
                         Samples.socket)) = true.
Proof.
  assert (receive Samples.socket = inr Samples.text_message) as Hr
    by reflexivity.
  assert (not_a_start_message (fun _ => inr Samples.stop_frame)
            Samples.text_message) as Hm.
  { right. right. right. exists Samples.stop_frame, (PyStr "stop").
    repeat split; vm_compute; reflexivity. }
  split; [exact Hr |]. split; [exact Hm |].
  exact (malformed_first_message_never_bridges Samples.no_repr
           (fun _ => inr Samples.stop_frame) Samples.socket
           Samples.text_message Hr Hm).
Defined.

(** C8.  For every call, the task that [run_bot] hands to the runner is
    the chain transport input, speech-to-text, user context aggregator,
    LLM, text-to-speech, transport output, audio buffer, assistant
    context aggregator, in this order, with input and output sample
    rates 16000, interruptions allowed and metrics enabled, both
    transport ends being the one transport built on the socket with its
    voice-activity detector enabled; no other task is run, and this one
    is run whenever the set-up does not raise. *)
Theorem run_bot_assembles_fixed_pipeline :
  forall repr env SYSTEM_PROMPT rt ws sid testing,
    let task := Bot.make_task env SYSTEM_PROMPT ws sid testing in
    let tr := Bot.make_transport ws sid in
    map stage_kind (pipeline task)
    = [KTransportInput; KSpeechToText; KUserContext; KLLM; KTextToSpeech;
       KTransportOutput; KAudioBuffer; KAssistantContext]
    /\ audio_in_sample_rate (task_params task) = 16000
    /\ audio_out_sample_rate (task_params task) = 16000
    /\ allow_interruptions (task_params task) = true
    /\ enable_metrics (task_params task) = true
    /\ omap stage_transport (pipeline task) = [tr; tr]
    /\ vad_enabled (params tr) = true
    /\ vad_analyzer (params tr) = SileroVADAnalyzer
    /\ (forall runner t,
           In (RunnerRun runner t)
              (trace (Bot.run_bot repr env SYSTEM_PROMPT rt ws sid testing)) ->
           t = task)
    /\ (Bot.setup_fault rt = None ->
        In (RunnerRun the_runner task)
           (trace (Bot.run_bot repr env SYSTEM_PROMPT rt ws sid testing))).
Proof.
  intros repr env SP rt ws sid testing task tr.
  repeat split.
  - intros runner t Hin. by apply run_bot_runs_its_task in Hin as [_ ->].
  - intros Hs. destruct (Bot.run_result rt) as [e | u] eqn:Hr.
    + rewrite (run_bot_run_raises _ _ _ _ _ _ _ _ Hs Hr). cbn. tauto.
    + rewrite (run_bot_run_returns _ _ _ _ _ _ _ _ Hs Hr). cbn. tauto.
Qed.

Lemma run_bot_assembles_fixed_pipeline_witness :
  Bot.setup_fault Samples.clean_run = None
  /\ In (RunnerRun the_runner
           (Bot.make_task ∅ PyNone Samples.socket (PyStr "s-42") true))
        (trace (Bot.run_bot Samples.no_repr ∅ PyNone Samples.clean_run
                  Samples.socket (PyStr "s-42") true)).
Proof.
  split; [reflexivity |].
  apply (run_bot_assembles_fixed_pipeline Samples.no_repr ∅ PyNone
           Samples.clean_run Samples.socket (PyStr "s-42") true).
  reflexivity.
Defined.

(** A bridged session whose pipeline run fails, event by event. *)
Example session_with_failing_run :
  stream_endpoint Samples.no_repr (fun _ => inr Samples.start_frame) ∅ PyNone
    Samples.failing_run Samples.socket
  = ([Log INFO "WebSocket endpoint accessed."; WsAccept; WsReceive;
      Log INFO "WebSocket connection accepted. Stream ID: s-42";
      Log INFO "Initializing bot with stream_sid: s-42";
      Log DEBUG "Pipeline and services initialized successfully.";
      RunnerRun the_runner
        (Bot.make_task ∅ PyNone Samples.socket (PyStr "s-42") true);
      Log ERROR "Error during pipeline execution: stt connection lost";
      Log INFO "WebSocket connection closed."],
     inr tt).
Proof. reflexivity. Qed.

End StreamSpec.

(* ===================================================================== *)
(** * Properties of the start-up check and of [POST /start-call]          *)
(* ===================================================================== *)

Module CallSpec.
Import App CallVocabulary.

Lemma append_nonempty (s t : string) :
  t <> EmptyString -> String.eqb (s +:+ t) "" = false.
Proof.
  intros Ht. destruct s; cbn; [| reflexivity].
  destruct t; [congruence | reflexivity].
Qed.

Lemma answer_url_truthy repr env :
  truthy (PLIVO_ANSWER_XML repr env) = true.
Proof.
  unfold PLIVO_ANSWER_XML, py_or.
  destruct (truthy (getenv env "PLIVO_ANSWER_XML")) eqn:Ht; [exact Ht |].
  cbn. rewrite append_nonempty; [reflexivity | discriminate].
Qed.

Lemma truthy_getenv env k :
  truthy (getenv env k) = false <-> unset_or_empty env k.
Proof.
  unfold getenv, unset_or_empty. destruct (env !! k) as [[| a s] |]; cbn.
  - split; [by right | done].
  - split; [done | intros [H | H]; discriminate H].
  - split; [by left | done].
Qed.

Lemma truthy_number env k z :
  z <> 0 ->
  truthy (getenv_default env k (PyInt z)) = false <-> blank env k.
Proof.
  intros Hz. unfold getenv_default, blank.
  destruct (env !! k) as [[| a s] |]; cbn.
  - done.
  - split; intros H; discriminate H.
  - split; [| intros H; discriminate H].
    destruct (Z.eqb_spec z 0); [done | intros H; discriminate H].
Qed.

Lemma plivo_client_unfold repr env :
  plivo_client repr env
  = if configured repr env
    then Some {| auth_id := PLIVO_AUTH_ID env;
                 auth_token := PLIVO_AUTH_TOKEN env |}
    else None.
Proof.
  unfold plivo_client. by destruct (configured repr env).
Qed.

Lemma startup_outcome repr env RestClient_refuses :
  outcome (startup repr env RestClient_refuses)
  = if configured repr env
    then match RestClient_refuses (PLIVO_AUTH_ID env)
                                  (PLIVO_AUTH_TOKEN env) with
         | Some e => inl e
         | None => inr (Some {| auth_id := PLIVO_AUTH_ID env;
                                auth_token := PLIVO_AUTH_TOKEN env |})
         end
    else inr None.
Proof.
  unfold startup. destruct (configured repr env); [| reflexivity].
  cbn. by destruct (RestClient_refuses _ _).
Qed.


Lemma configured_false repr env :
  configured repr env = false <->
  unset_or_empty env "PLIVO_AUTH_ID" \/ unset_or_empty env "PLIVO_AUTH_TOKEN"
  \/ blank env "PLIVO_FROM_NUMBER" \/ blank env "PLIVO_TO_NUMBER".
Proof.
  unfold configured, py_all. cbn [forallb].
  rewrite (answer_url_truthy repr env), !andb_true_r.
  rewrite <- (truthy_getenv env "PLIVO_AUTH_ID").
  rewrite <- (truthy_getenv env "PLIVO_AUTH_TOKEN").
  rewrite <- (truthy_number env "PLIVO_FROM_NUMBER" 918035737766) by done.
  rewrite <- (truthy_number env "PLIVO_TO_NUMBER" 919671454088) by done.
  fold (PLIVO_AUTH_ID env) (PLIVO_AUTH_TOKEN env)
       (PLIVO_FROM_NUMBER env) (PLIVO_TO_NUMBER env).
  destruct (truthy (PLIVO_AUTH_ID env)), (truthy (PLIVO_AUTH_TOKEN env)),
           (truthy (PLIVO_FROM_NUMBER env)), (truthy (PLIVO_TO_NUMBER env));
    cbn; intuition congruence.
Qed.

Lemma credentials_pass_the_check repr env :
  truthy (PLIVO_AUTH_ID env) = true ->
  truthy (PLIVO_AUTH_TOKEN env) = true ->
  env !! "PLIVO_FROM_NUMBER" = None ->
  env !! "PLIVO_TO_NUMBER" = None ->
  configured repr env = true.
Proof.
  intros Hid Htok Hfrom Hto.
  destruct (configured repr env) eqn:Hc; [reflexivity |].
  apply configured_false in Hc.
  destruct Hc as [Hc | [Hc | [Hc | Hc]]].
  - apply truthy_getenv in Hc. unfold PLIVO_AUTH_ID in Hid. congruence.
  - apply truthy_getenv in Hc. unfold PLIVO_AUTH_TOKEN in Htok. congruence.
  - unfold blank in Hc. congruence.
  - unfold blank in Hc. congruence.
Qed.

(** C10, as stated, fails: with both credentials set and the from-number
    set to the empty string, the start-up check fails before any client
    is built and leaves the call initiator disabled. *)
Lemma blank_number_disables_initiator :
  Samples.env_blank_from_number !! "PLIVO_AUTH_ID"
  = Some "MANJK3ZTE0MDQ1OWVHYT"
  /\ Samples.env_blank_from_number !! "PLIVO_AUTH_TOKEN" = Some "secret"
  /\ plivo_client Samples.no_repr Samples.env_blank_from_number = None.
Proof. repeat split; vm_compute; reflexivity. Qed.

(** C10, amended.  The start-up check disables the call initiator
    exactly when PLIVO_AUTH_ID or PLIVO_AUTH_TOKEN is unset or empty, or
    PLIVO_FROM_NUMBER or PLIVO_TO_NUMBER is set to the empty string, and
    these are the environments in which the module loads with
    [plivo_client] bound to [None].  An unset number falls back to its
    non-zero integer default and the answer URL is a non-empty string
    whatever PLIVO_ANSWER_XML and NGROK_URL are, so unset number or URL
    variables never disable it: with two non-empty credentials and the
    numbers unset the check passes and the client constructor is called
    on the two credentials; the client is bound if the constructor
    accepts them, and the import fails with its exception if not. *)
Theorem startup_disables_initiator_exactly_when :
  forall repr env RestClient_refuses,
    (plivo_client repr env = None <->
     unset_or_empty env "PLIVO_AUTH_ID"
     \/ unset_or_empty env "PLIVO_AUTH_TOKEN"
     \/ blank env "PLIVO_FROM_NUMBER" \/ blank env "PLIVO_TO_NUMBER")
    /\ (outcome (startup repr env RestClient_refuses) = inr None <->
        unset_or_empty env "PLIVO_AUTH_ID"
        \/ unset_or_empty env "PLIVO_AUTH_TOKEN"
        \/ blank env "PLIVO_FROM_NUMBER" \/ blank env "PLIVO_TO_NUMBER")
    /\ (env !! "PLIVO_FROM_NUMBER" = None ->
        PLIVO_FROM_NUMBER env = PyInt 918035737766)
    /\ (env !! "PLIVO_TO_NUMBER" = None ->
        PLIVO_TO_NUMBER env = PyInt 919671454088)
    /\ truthy (PLIVO_ANSWER_XML repr env) = true
    /\ (env !! "PLIVO_ANSWER_XML" = None -> env !! "NGROK_URL" = None ->
        PLIVO_ANSWER_XML repr env = PyStr "None/webhook")
    /\ (truthy (PLIVO_AUTH_ID env) = true ->
        truthy (PLIVO_AUTH_TOKEN env) = true ->
        env !! "PLIVO_FROM_NUMBER" = None ->
        env !! "PLIVO_TO_NUMBER" = None ->
        configured repr env = true
        /\ outcome (startup repr env RestClient_refuses)
           = match RestClient_refuses (PLIVO_AUTH_ID env)
                                      (PLIVO_AUTH_TOKEN env) with
             | Some e => inl e
             | None => inr (Some {| auth_id := PLIVO_AUTH_ID env;
                                    auth_token := PLIVO_AUTH_TOKEN env |})
             end).
Proof.
  intros repr env refuses.
  split; [| split; [| split; [| split; [| split; [| split]]]]].
  - rewrite plivo_client_unfold. split.
    + intros H. apply (configured_false repr).
      by destruct (configured repr env).
    + intros H. apply (configured_false repr) in H. by rewrite H.
  - rewrite startup_outcome. split.
    + intros H. apply (configured_false repr).
      destruct (configured repr env); [| reflexivity].
      by destruct (refuses _ _).
    + intros H. apply (configured_false repr) in H. by rewrite H.
  - intros H. unfold PLIVO_FROM_NUMBER, getenv_default. by rewrite H.
  - intros H. unfold PLIVO_TO_NUMBER, getenv_default. by rewrite H.
  - apply answer_url_truthy.
  - intros H1 H2. unfold PLIVO_ANSWER_XML, NGROK_URL, getenv.
    by rewrite H1, H2.
  - intros Hid Htok Hfrom Hto.
    pose proof (credentials_pass_the_check repr env Hid Htok Hfrom Hto) as Hc.
    split; [exact Hc |]. by rewrite startup_outcome, Hc.
Qed.

Lemma startup_disables_initiator_exactly_when_witness :
  truthy (PLIVO_AUTH_ID Samples.env_credentials_only) = true
  /\ truthy (PLIVO_AUTH_TOKEN Samples.env_credentials_only) = true
  /\ Samples.env_credentials_only !! "PLIVO_FROM_NUMBER" = None
  /\ Samples.env_credentials_only !! "PLIVO_TO_NUMBER" = None
  /\ configured Samples.no_repr Samples.env_credentials_only = true
  /\ outcome (startup Samples.no_repr Samples.env_credentials_only
                Samples.accepting)
     = inr (Some {| auth_id := PyStr "MANJK3ZTE0MDQ1OWVHYT";
                    auth_token := PyStr "secret" |}).
Proof.
  assert (truthy (PLIVO_AUTH_ID Samples.env_credentials_only) = true) as H1
    by (vm_compute; reflexivity).
  assert (truthy (PLIVO_AUTH_TOKEN Samples.env_credentials_only) = true)
    as H2 by (vm_compute; reflexivity).
  assert (Samples.env_credentials_only !! "PLIVO_FROM_NUMBER" = None) as H3
    by (vm_compute; reflexivity).
  assert (Samples.env_credentials_only !! "PLIVO_TO_NUMBER" = None) as H4
    by (vm_compute; reflexivity).
  destruct (proj2 (proj2 (proj2 (proj2 (proj2 (proj2
              (startup_disables_initiator_exactly_when Samples.no_repr
                 Samples.env_credentials_only Samples.accepting))))))
              H1 H2 H3 H4) as [Hc Ho].
  split; [exact H1 |]. split; [exact H2 |]. split; [exact H3 |].
  split; [exact H4 |]. split; [exact Hc |].
  etransitivity; [exact Ho |]. vm_compute; reflexivity.
Defined.

(** The same environment under a constructor that refuses the
    credentials: the check passes and the import fails. *)
Example refused_credentials_fail_the_import :
  configured Samples.no_repr Samples.env_credentials_only = true
  /\ startup Samples.no_repr Samples.env_credentials_only Samples.refusing
     = ([Log INFO "Loading environment variables from .env file"],
        inl (Raised "AuthenticationError"
               "Invalid auth_id supplied: MANJK3ZTE0MDQ1OWVHYT")).
Proof. split; vm_compute; reflexivity. Qed.

Lemma start_call_not_configured repr env create_result :
  start_plivo_call_with repr env create_result None
  = ([start_call_log; Log ERROR "Plivo client not configured."],
     inr not_configured_reply).
Proof. reflexivity. Qed.

Lemma start_call_provider_raises repr env c e :
  start_plivo_call_with repr env (inl e) (Some c)
  = ([start_call_log; create_request repr env;
      Log ERROR ("Error initiating outbound call: " +:+ str_exc e)],
     inr (error_reply (str_exc e))).
Proof. reflexivity. Qed.

Lemma start_call_response_without_uuid repr env c response e :
  py_getitem response "request_uuid" = inl e ->
  start_plivo_call_with repr env (inr response) (Some c)
  = ([start_call_log; create_request repr env;
      Log ERROR ("Error initiating outbound call: " +:+ str_exc e)],
     inr (error_reply (str_exc e))).
Proof.
  intros H. unfold start_plivo_call_with. cbn -[py_getitem].
  unfold lift. rewrite H. reflexivity.
Qed.

Lemma start_call_success repr env c response uuid :
  py_getitem response "request_uuid" = inr uuid ->
  start_plivo_call_with repr env (inr response) (Some c)
  = ([start_call_log; create_request repr env;
      Log INFO ("Outbound call initiated successfully. Call UUID: "
                +:+ py_str repr uuid)],
     inr (success_reply uuid)).
Proof.
  intros H. unfold start_plivo_call_with. cbn -[py_getitem].
  unfold lift. rewrite H. reflexivity.
Qed.

(** C3.  [POST /start-call] never raises: every invocation returns a
    status/message or status/call_uuid body.  When the client is not
    configured, which is the case whenever PLIVO_AUTH_ID or
    PLIVO_AUTH_TOKEN is unset at start-up, the body is the error
    "Plivo client not configured" and no creation request is sent to the
    provider; when the creation request raises, the exception is caught
    and the body is the error carrying its text. *)
Theorem start_call_never_raises :
  forall repr env create_result,
    let r := start_plivo_call repr env create_result in
    (exists body, outcome r = inr body /\ structured_reply body)
    /\ (plivo_client repr env = None ->
        outcome r = inr not_configured_reply
        /\ filter is_CallsCreate (trace r) = [])
    /\ (env !! "PLIVO_AUTH_ID" = None \/ env !! "PLIVO_AUTH_TOKEN" = None ->
        plivo_client repr env = None)
    /\ (forall c e,
           plivo_client repr env = Some c -> create_result = inl e ->
           outcome r = inr (error_reply (str_exc e))
           /\ In (Log ERROR ("Error initiating outbound call: "
                             +:+ str_exc e)) (trace r)).
Proof.
  intros repr env create_result r. subst r. unfold start_plivo_call.
  split; [| split; [| split]].
  - destruct (plivo_client repr env) as [c |].
    + destruct create_result as [e | response].
      * rewrite start_call_provider_raises. eexists; split; [done |].
        right; by eexists.
      * destruct (py_getitem response "request_uuid") as [e | uuid] eqn:H.
        -- rewrite (start_call_response_without_uuid _ _ _ _ _ H).
           eexists; split; [done |]. right; by eexists.
        -- rewrite (start_call_success _ _ _ _ _ H).
           eexists; split; [done |]. left; by eexists.
    + rewrite start_call_not_configured. eexists; split; [done |].
      right; by eexists.
  - intros ->. by rewrite start_call_not_configured.
  - intros H. rewrite plivo_client_unfold.
    assert (configured repr env = false) as ->; [| reflexivity].
    apply configured_false.
    destruct H as [H | H]; [left | right; left]; by left.
  - intros c e -> ->. rewrite start_call_provider_raises. cbn. tauto.
Qed.

Lemma start_call_never_raises_witness :
  Samples.env_no_token !! "PLIVO_AUTH_TOKEN" = None
  /\ plivo_client Samples.no_repr Samples.env_no_token = None
  /\ outcome (start_plivo_call Samples.no_repr Samples.env_no_token
                (inr Samples.provider_response))
     = inr not_configured_reply
  /\ filter is_CallsCreate
       (trace (start_plivo_call Samples.no_repr Samples.env_no_token
                 (inr Samples.provider_response))) = [].
Proof.
  assert (Samples.env_no_token !! "PLIVO_AUTH_TOKEN" = None) as H
    by (vm_compute; reflexivity).
  pose proof (start_call_never_raises Samples.no_repr Samples.env_no_token
                (inr Samples.provider_response)) as (_ & Hoff & Hcred & _).
  pose proof (Hcred (or_intror H)) as Hnone.
  split; [exact H |]. split; [exact Hnone |]. exact (Hoff Hnone).
Defined.

(** C4.  When the client is configured, the creation request succeeds
    and the provider's response contains a request_uuid, the endpoint
    sends exactly one creation request (from-number, to-number, answer
    URL, method POST) and returns exactly the body with status
    "success" and call_uuid equal to that request_uuid. *)
Theorem start_call_returns_provider_uuid :
  forall repr env c response uuid,
    plivo_client repr env = Some c ->
    py_getitem response "request_uuid" = inr uuid ->
    let r := start_plivo_call repr env (inr response) in
    outcome r = inr (success_reply uuid)
    /\ filter is_CallsCreate (trace r) = [create_request repr env].
Proof.
  intros repr env c response uuid Hc Hu r. subst r.
  unfold start_plivo_call. rewrite Hc.
  by rewrite (start_call_success _ _ _ _ _ Hu).
Qed.

Lemma start_call_returns_provider_uuid_witness :
  plivo_client Samples.no_repr Samples.env_credentials_only
  = Some {| auth_id := PyStr "MANJK3ZTE0MDQ1OWVHYT";
            auth_token := PyStr "secret" |}
  /\ py_getitem Samples.provider_response "request_uuid"
     = inr (PyStr "abc-123")
  /\ outcome (start_plivo_call Samples.no_repr Samples.env_credentials_only
                (inr Samples.provider_response))
     = inr (dict2 "status" (PyStr "success") "call_uuid" (PyStr "abc-123")).
Proof.
  assert (plivo_client Samples.no_repr Samples.env_credentials_only
          = Some {| auth_id := PyStr "MANJK3ZTE0MDQ1OWVHYT";
                    auth_token := PyStr "secret" |}) as H1
    by (vm_compute; reflexivity).
  assert (py_getitem Samples.provider_response "request_uuid"
          = inr (PyStr "abc-123")) as H2 by (vm_compute; reflexivity).
  split; [exact H1 |]. split; [exact H2 |].
  exact (proj1 (start_call_returns_provider_uuid Samples.no_repr
                  Samples.env_credentials_only _ Samples.provider_response
                  (PyStr "abc-123") H1 H2)).
Defined.

End CallSpec.

(* ===================================================================== *)
(** * Properties of the WAV writer and of [save_audio]                    *)
(* ===================================================================== *)

Module AudioSpec.
Import Wave Bot AudioVocabulary.

(** ** Little-endian fields *)




Lemma pack_uint_ok (n : nat) (v : Z) :
  0 <= v < 256 ^ Z.of_nat n -> pack_uint n v = inr (le_bytes n v).
Proof.
  intros [H1 H2]. unfold pack_uint.
  destruct (Z.leb_spec 0 v); [| lia].
  destruct (Z.ltb_spec v (256 ^ Z.of_nat n)); [reflexivity | lia].
Qed.

Lemma length_le_bytes (n : nat) (v : Z) : length (le_bytes n v) = n.
Proof. revert v. induction n; intros v; cbn; [done | by rewrite IHn]. Qed.

(** ** The writer, step by step *)

Section Encode.
Variable audio : list byte.
Variables sample_rate num_channels : Z.
Hypothesis Hfit : encodable audio sample_rate num_channels.

Local Abbreviation n := (Z.of_nat (length audio)).
Local Abbreviation nfr := (n / (num_channels * 2)).

Lemma setters_ok :
  seq (setsampwidth 2)
      (seq (setnchannels num_channels) (setframerate sample_rate)) open_wb
  = (None, mkWave num_channels 2 sample_rate 0 0 0 0 false 0 0 []).
Proof.
  destruct Hfit as ([Hc _] & Hr & _).
  unfold seq, setsampwidth, setnchannels, setframerate, open_wb. cbn.
  destruct (Z.ltb_spec num_channels 1); [lia |].
  destruct (Z.leb_spec sample_rate 0); [lia |]. reflexivity.
Qed.

Lemma initial_length_bound : 0 <= nfr * num_channels * 2 <= n.
Proof.
  destruct Hfit as ([Hc _] & _).
  pose proof (Z.mul_div_le n (num_channels * 2) ltac:(lia)).
  pose proof (Z.div_pos n (num_channels * 2) ltac:(lia) ltac:(lia)).
  nia.
Qed.

Lemma pack_header_ok (form_length : Z) :
  0 <= form_length < 2 ^ 32 ->
  pack_header form_length WAVE_FORMAT_PCM num_channels sample_rate
    (num_channels * sample_rate * 2) (num_channels * 2) (2 * 8)
  = inr (le_bytes 4 form_length ++ WAVE ++ fmt_ ++ le_bytes 4 16
         ++ le_bytes 2 WAVE_FORMAT_PCM ++ le_bytes 2 num_channels
         ++ le_bytes 4 sample_rate
         ++ le_bytes 4 (num_channels * sample_rate * 2)
         ++ le_bytes 2 (num_channels * 2) ++ le_bytes 2 16 ++ data).
Proof.
  intros Hl. destruct Hfit as ([Hc1 Hc2] & Hr & Hbr & _).
  unfold pack_header.
  change (2 ^ 32) with 4294967296 in *.
  assert (sample_rate <= num_channels * sample_rate) as Hle by nia.
  rewrite (pack_uint_ok 4 form_length) by (cbn; lia).
  rewrite (pack_uint_ok 4 16) by (cbn; lia).
  rewrite (pack_uint_ok 2 WAVE_FORMAT_PCM) by (unfold WAVE_FORMAT_PCM; cbn; lia).
  rewrite (pack_uint_ok 2 num_channels) by (cbn; lia).
  rewrite (pack_uint_ok 4 sample_rate) by (cbn; lia).
  rewrite (pack_uint_ok 4 (num_channels * sample_rate * 2))
    by (cbn; lia).
  rewrite (pack_uint_ok 2 (num_channels * 2)) by (cbn; lia).
  rewrite (pack_uint_ok 2 (2 * 8)) by (cbn; lia).
  reflexivity.
Qed.

Lemma write_header_ok :
  _write_header n (mkWave num_channels 2 sample_rate 0 0 0 0 false 0 0 [])
  = (None,
     mkWave num_channels 2 sample_rate nfr 0 0 (nfr * num_channels * 2)
       true 4 40 (wav_header num_channels sample_rate
                    (nfr * num_channels * 2))).
Proof.
  pose proof initial_length_bound as Hdl.
  destruct Hfit as (_ & _ & _ & Hn).
  change (2 ^ 32) with 4294967296 in *.
  unfold _write_header.
  cbn [nchannels sampwidth framerate nframes nframeswritten datawritten
       datalength headerwritten form_length_pos data_length_pos file].
  change (0 =? 0) with true. cbv iota.
  rewrite pack_header_ok by (change (2 ^ 32) with 4294967296; lia).
  rewrite (pack_uint_ok 4 (nfr * num_channels * 2)) by (cbn; lia).
  reflexivity.
Qed.

Lemma patched_header (dl : Z) :
  overwrite 40 (le_bytes 4 n)
    (overwrite 4 (le_bytes 4 (36 + n))
       (wav_header num_channels sample_rate dl ++ audio))
  = canonical_wav num_channels sample_rate audio.
Proof. reflexivity. Qed.

Lemma writeframes_ok :
  exists w,
    writeframes audio
      (mkWave num_channels 2 sample_rate 0 0 0 0 false 0 0 [])
    = (None, w)
    /\ file w = canonical_wav num_channels sample_rate audio
    /\ headerwritten w = true
    /\ datalength w = datawritten w.
Proof.
  pose proof initial_length_bound as Hdl.
  destruct Hfit as ([Hc _] & Hr & _ & Hn).
  change (2 ^ 32) with 4294967296 in *.
  unfold writeframes, writeframesraw, seq, _ensure_header_written.
  cbn [nchannels sampwidth framerate nframes nframeswritten datawritten
       datalength headerwritten form_length_pos data_length_pos file].
  destruct (Z.eqb_spec num_channels 0) as [Hz | _]; [lia |].
  destruct (Z.eqb_spec sample_rate 0) as [Hz | _]; [lia |].
  change (2 =? 0) with false. cbv iota.
  rewrite write_header_ok.
  cbn [nchannels sampwidth framerate nframes nframeswritten datawritten
       datalength headerwritten form_length_pos data_length_pos file].
  unfold patch_if_needed, _patchheader.
  cbn [nchannels sampwidth framerate nframes nframeswritten datawritten
       datalength headerwritten form_length_pos data_length_pos file].
  rewrite !Z.add_0_l.
  destruct (Z.eqb_spec (nfr * num_channels * 2) n) as [Heq | Hne].
  - cbn [negb]. eexists. split; [reflexivity |].
    cbn [file headerwritten datalength datawritten].
    unfold canonical_wav. rewrite Heq. done.
  - cbn [negb].
    destruct (Z.eqb_spec n (nfr * num_channels * 2)) as [Hz | _];
      [lia |].
    rewrite (pack_uint_ok 4 (36 + n)) by (cbn; lia).
    rewrite (pack_uint_ok 4 n) by (cbn; lia).
    eexists. split; [reflexivity |].
    cbn [file headerwritten datalength datawritten].
    rewrite patched_header. done.
Qed.

Lemma encode_wav_ok :
  exists w,
    encode_wav audio sample_rate num_channels = (None, w)
    /\ file w = canonical_wav num_channels sample_rate audio.
Proof.
  destruct writeframes_ok as (w & Hw & Hfile & Hhdr & Hlen).
  exists w. split; [| exact Hfile].
  unfold encode_wav, with_open.
  pose proof setters_ok as Hs. unfold seq in Hs |- *.
  destruct (setsampwidth 2 open_wb) as [[e1 |] w1]; [discriminate Hs |].
  destruct (setnchannels num_channels w1) as [[e2 |] w2];
    [discriminate Hs |].
  destruct (setframerate sample_rate w2) as [[e3 |] w3];
    [discriminate Hs |].
  injection Hs as ->. rewrite Hw.
  unfold close, seq, _ensure_header_written, patch_if_needed.
  rewrite Hhdr, Hlen, Z.eqb_refl. reflexivity.
Qed.

End Encode.

(** ** [save_audio] *)


Lemma stamp_same_second a b :
  same_second a b -> strftime_stamp a = strftime_stamp b.
Proof.
  intros (H1 & H2 & H3 & H4 & H5 & H6). unfold strftime_stamp.
  by rewrite H1, H2, H3, H4, H5, H6.
Qed.

Example stamp_of_sample_clock :
  strftime_stamp Samples.clock = "20261104_090507".
Proof. reflexivity. Qed.

(** ** Paths of recordings *)







Lemma recordings_dir_eq (current_dir : Path) :
  recordings_dir current_dir = parent current_dir ++ ["recordings"].
Proof. reflexivity. Qed.










(** A server name with a directory part: the recording is aimed at a
    directory that was never made, and the open fails. *)
Example slash_in_server_name :
  save_audio Samples.clock Samples.backend_dir "a/b" Samples.two_samples
    16000 1 Samples.empty_disk
  = (raise (Raised "FileNotFoundError"
              "[Errno 2] No such file or directory: '/srv/agent/recordings/a/b_recording_20261104_090507.wav'"),
     {| dirs := {[ ["srv"; "agent"; "recordings"] ]} ∪ ∅; files := ∅ |}).
Proof.
  unfold save_audio. cbv zeta.
  destruct (encode_wav_ok Samples.two_samples 16000 1) as (w & Hw & _);
    [unfold encodable; cbn; lia |].
  change (0 <? length Samples.two_samples)%nat with true. cbv iota.
  rewrite Hw.
  change (has_char NUL (recording_name Samples.clock "a/b")) with false.
  cbv iota. unfold open_write.
  rewrite bool_decide_false; [reflexivity |].
  change (parent (joinpath (recordings_dir Samples.backend_dir)
                    (recording_name Samples.clock "a/b")))
    with ["srv"; "agent"; "recordings"; "a"].
  cbn [mkdir_exist_ok dirs Samples.empty_disk].
  change (recordings_dir Samples.backend_dir)
    with ["srv"; "agent"; "recordings"].
  rewrite elem_of_union, elem_of_singleton, elem_of_empty.
  intros [Heq | []]. discriminate Heq.
Qed.

End AudioSpec.

(* ===================================================================== *)
(** * Properties of the command-line caller and of the route table        *)
(* ===================================================================== *)

Module CliSpec.
Import App MakeCall CliVocabulary.

Section Caller.
Variable repr : pyval -> string.
Variable env : gmap string string.
Variable requests_post : string -> Exception + HttpResponse.
Variable phone_number : string.
Variable url : option string.

Local Abbreviation tgt := (target env phone_number url).
Local Abbreviation run := (main repr env requests_post phone_number url).

Lemma make_call_unfold :
  make_call requests_post phone_number (chosen_server_url env url)
  = try_except_request
      (bind (call (HttpPost tgt) (requests_post tgt))
            (fun response =>
               bind (lift (raise_for_status response))
                    (fun _ => lift (response_json response))))
      (fun e =>
         bind (emit (Print ("Error making call: " +:+ str_exc e)))
              (fun _ =>
                 bind match exc_response_text e with
                      | Some t => emit (Print ("Response: " +:+ t))
                      | None => ret tt
                      end
                      (fun _ => ret PyNone))).
Proof. reflexivity. Qed.

Lemma main_request_failed e :
  request_failed (requests_post tgt) e ->
  run = ([HttpPost tgt]
         ++ map Print (failure_output e), inr 1).
Proof.
  intros Hf. unfold main. rewrite make_call_unfold.
  destruct Hf as [[Hp He] | [(r & Hp & Hs) | (r & Hp & Hs & Hj)]];
    rewrite Hp; cbn -[raise_for_status response_json].
  - rewrite He. unfold failure_output.
    destruct e; try discriminate He. cbn.
    by destruct response_text.
  - unfold lift. rewrite Hs. unfold failure_output.
    unfold raise_for_status in Hs.
    destruct ((400 <=? status_code r) && (status_code r <? 500));
      [injection Hs as <-; reflexivity |].
    destruct ((500 <=? status_code r) && (status_code r <? 600));
      [injection Hs as <-; reflexivity | discriminate Hs].
  - unfold lift. rewrite Hs. cbn -[response_json]. rewrite Hj.
    unfold response_json in Hj.
    destruct (json_body r); [injection Hj as <-; reflexivity |].
    discriminate Hj.
Qed.

Lemma main_succeeded r v :
  requests_post tgt = inr r ->
  raise_for_status r = inr tt ->
  json_body r = inr v ->
  run = bind (call (HttpPost tgt) (inr v))
          (fun result =>
             if truthy result then
               bind (lift (py_get result "call_sid"))
                 (fun call_sid =>
                    bind (emit (Print
                            ("Call initiated successfully! Call SID: "
                             +:+ py_str repr call_sid)))
                         (fun _ => ret 0))
             else bind (emit (Print "Failed to initiate call."))
                    (fun _ => ret 1)).
Proof.
  intros Hp Hs Hj. unfold main. rewrite make_call_unfold.
  rewrite Hp. cbn -[raise_for_status truthy py_get].
  unfold lift. rewrite Hs. cbn -[truthy py_get].
  unfold response_json. rewrite Hj. cbn -[truthy py_get].
  destruct (truthy v); [| reflexivity].
  by destruct (py_get v "call_sid").
Qed.

Lemma one_post : posts repr env requests_post phone_number url = [tgt].
Proof.
  unfold posts.
  destruct (requests_post tgt) as [e | r] eqn:Hp.
  { destruct (is_RequestException e) eqn:He.
    - rewrite (main_request_failed e) by (left; done).
      cbn. unfold failure_output.
      by destruct (exc_response_text e).
    - unfold main. rewrite make_call_unfold, Hp. cbn. by rewrite He. }
  destruct (raise_for_status r) as [e | []] eqn:Hs.
  { rewrite (main_request_failed e) by (right; left; eauto).
    cbn. unfold failure_output. by destruct (exc_response_text e). }
  destruct (json_body r) as [msg | v] eqn:Hj.
  { rewrite (main_request_failed (RequestException msg None)).
    - reflexivity.
    - right; right. exists r. unfold response_json. by rewrite Hj. }
  rewrite (main_succeeded r v Hp Hs Hj). cbn -[truthy py_get].
  destruct (truthy v); [| reflexivity].
  by destruct (py_get v "call_sid").
Qed.

Lemma failed_request_exits_1 e :
  request_failed (requests_post tgt) e ->
  exit_status repr env requests_post phone_number url = 1
  /\ stdout repr env requests_post phone_number url = failure_output e.
Proof.
  intros Hf. unfold exit_status, stdout.
  rewrite (main_request_failed e Hf). split; [reflexivity |].
  cbn. unfold failure_output. by destruct (exc_response_text e).
Qed.

Lemma object_reply_exits_0 r d :
  requests_post tgt = inr r ->
  raise_for_status r = inr tt ->
  json_body r = inr (PyDict d) ->
  d <> ∅ ->
  exit_status repr env requests_post phone_number url = 0
  /\ stdout repr env requests_post phone_number url
     = success_output repr (dict_get d "call_sid").
Proof.
  intros Hp Hs Hj Hd. unfold exit_status, stdout.
  rewrite (main_succeeded r _ Hp Hs Hj). cbn -[bool_decide].
  rewrite bool_decide_eq_false_2 by done. by cbn.
Qed.

Lemma falsy_reply_exits_1 r v :
  requests_post tgt = inr r ->
  raise_for_status r = inr tt ->
  json_body r = inr v ->
  truthy v = false ->
  exit_status repr env requests_post phone_number url = 1
  /\ stdout repr env requests_post phone_number url
     = ["Failed to initiate call."].
Proof.
  intros Hp Hs Hj Hv. unfold exit_status, stdout.
  rewrite (main_succeeded r _ Hp Hs Hj). cbn -[truthy].
  by rewrite Hv.
Qed.

Lemma error_status_raises r :
  400 <= status_code r < 600 ->
  exists msg, raise_for_status r = inl (RequestException msg (Some (text r))).
Proof.
  intros [H1 H2]. unfold raise_for_status.
  destruct (Z.leb_spec 400 (status_code r)); [| lia].
  destruct (Z.ltb_spec (status_code r) 500); cbn; [by eexists |].
  destruct (Z.leb_spec 500 (status_code r)); [| lia].
  destruct (Z.ltb_spec (status_code r) 600); cbn; [by eexists | lia].
Qed.
End Caller.

(** C7, as stated, fails.  Against a server that answers 200 with the
    empty JSON object the request succeeds, yet the caller prints the
    failure line and exits with status 1; and a reply with the non-2xx
    status 300 that carries a JSON object is reported as a success, with
    exit status 0. *)
Lemma success_and_failure_are_not_split_at_2xx :
  let post := fun _ : string => inr Samples.empty_object_reply in
  let post' := fun _ : string => inr Samples.multiple_choices_reply in
  (status_code Samples.empty_object_reply = 200
   /\ response_json Samples.empty_object_reply = inr (PyDict ∅)
   /\ exit_status Samples.no_repr ∅ post "15551234567" None = 1
   /\ stdout Samples.no_repr ∅ post "15551234567" None
      = ["Failed to initiate call."]
   /\ posts Samples.no_repr ∅ post "15551234567" None
      = ["http://localhost:8765/call/15551234567"])
  /\ (status_code Samples.multiple_choices_reply = 300
      /\ exit_status Samples.no_repr ∅ post' "15551234567" None = 0
      /\ stdout Samples.no_repr ∅ post' "15551234567" None
         = ["Call initiated successfully! Call SID: CA77"]).
Proof. repeat split. Qed.

(** A reply that names the call under [call_uuid], as this server's
    [/start-call] does, is reported with [None] as the identifier. *)
Example call_uuid_reply_prints_None :
  let post := fun _ : string => inr Samples.call_uuid_reply in
  exit_status Samples.no_repr ∅ post "15551234567" None = 0
  /\ stdout Samples.no_repr ∅ post "15551234567" None
     = ["Call initiated successfully! Call SID: None"].
Proof. repeat split. Qed.

(** C7, amended.  Invoked with a phone number and an optional server
    URL, the caller issues exactly one POST, to the chosen server URL
    without trailing slashes followed by /call/ and the phone number.
    When the request succeeds (no 4xx or 5xx status) with a non-empty
    JSON object, it prints the object's call_sid field (None when the
    field is absent) and exits with status 0.  When the request fails
    with a RequestException (connection error, 4xx or 5xx status, body
    that is not JSON), it prints the error, the response text if the
    error carries a response, and the failure line, and exits with
    status 1. *)
Theorem cli_exit_status :
  forall repr env requests_post phone_number url,
    let tgt := target env phone_number url in
    posts repr env requests_post phone_number url = [tgt]
    /\ (forall r d,
           requests_post tgt = inr r ->
           raise_for_status r = inr tt ->
           json_body r = inr (PyDict d) ->
           d <> ∅ ->
           exit_status repr env requests_post phone_number url = 0
           /\ stdout repr env requests_post phone_number url
              = success_output repr (dict_get d "call_sid"))
    /\ (forall e,
           request_failed (requests_post tgt) e ->
           exit_status repr env requests_post phone_number url = 1
           /\ stdout repr env requests_post phone_number url
              = failure_output e)
    /\ (forall r,
           400 <= status_code r < 600 ->
           exists msg,
             raise_for_status r
             = inl (RequestException msg (Some (text r)))).
Proof.
  intros repr env requests_post phone_number url tgt.
  split; [apply one_post |].
  split; [intros r d; apply object_reply_exits_0 |].
  split; [intros e; apply failed_request_exits_1 |].
  apply error_status_raises.
Qed.

Lemma cli_exit_status_witness :
  let post := fun _ : string => inr Samples.call_sid_reply in
  post (target ∅ "15551234567" None) = inr Samples.call_sid_reply
  /\ raise_for_status Samples.call_sid_reply = inr tt
  /\ json_body Samples.call_sid_reply
     = inr (PyDict {[ "call_sid" := PyStr "CA77" ]})
  /\ ({[ "call_sid" := PyStr "CA77" ]} : gmap string pyval) <> ∅
  /\ exit_status Samples.no_repr ∅ post "15551234567" None = 0
  /\ stdout Samples.no_repr ∅ post "15551234567" None
     = ["Call initiated successfully! Call SID: CA77"].
Proof.
  intros post.
  assert (post (target ∅ "15551234567" None) = inr Samples.call_sid_reply)
    as H1 by reflexivity.
  assert (raise_for_status Samples.call_sid_reply = inr tt) as H2
    by reflexivity.
  assert (json_body Samples.call_sid_reply
          = inr (PyDict {[ "call_sid" := PyStr "CA77" ]})) as H3
    by reflexivity.
  assert (({[ "call_sid" := PyStr "CA77" ]} : gmap string pyval) <> ∅)
    as H4 by (vm_compute; discriminate).
  split; [exact H1 |]. split; [exact H2 |]. split; [exact H3 |].
  split; [exact H4 |].
  exact (proj1 (proj2 (cli_exit_status Samples.no_repr ∅ post
                         "15551234567" None))
           Samples.call_sid_reply _ H1 H2 H3 H4).
Defined.

(** ** The route table *)





(** ** The path that reaches the server *)











(** The two dot segments as phone numbers. *)
Example dot_segment_phone_numbers :
  request_path ".." = "/"
  /\ route_request all_routes POST (request_path "..") = MethodNotAllowed
  /\ request_path "." = "/call/"
  /\ route_request all_routes POST (request_path ".") = NotFound
  /\ request_path "15551234567?x=1" = "/call/15551234567".
Proof. repeat split. Qed.

End CliSpec.


(* ===================================================================== *)
(** * More on the [/stream] endpoint and on [run_bot]                     *)
(* ===================================================================== *)

Module StreamMore.
Import App StreamVocabulary MoreVocabulary.

Lemma logs_are_silent (notes : list event) :
  forallb is_Log notes = true ->
  forallb silent notes = true /\ List.filter is_socket_op notes = []
  /\ List.filter is_RunnerRun notes = [].
Proof.
  induction notes as [| ev notes IH]; [done |].
  cbn [forallb]. intros [Hev Hn]%andb_prop.
  destruct (IH Hn) as (H1 & H2 & H3).
  destruct ev; try discriminate Hev. cbn. by rewrite H1, H2, H3.
Qed.

Lemma endpoint_dichotomy repr json_loads ws :
  (exists message sid,
      receive ws = inr message /\ start_message json_loads message sid)
  \/ (exists notes,
         forallb is_Log notes = true
         /\ forall run_bot,
             websocket_endpoint repr json_loads run_bot ws
             = (opening ++ notes ++ [closing], inr tt)).
Proof.
  destruct (receive ws) as [e | message] eqn:Hr.
  { right. exists [comm_error e]. split; [done |]. intros rb.
    by rewrite (StreamSpec.endpoint_receive_raises _ _ _ _ _ Hr). }
  destruct (is_None (dict_get message "text")) eqn:Hn.
  { right. exists [no_text]. split; [done |]. intros rb.
    by rewrite (StreamSpec.endpoint_no_text _ _ _ _ _ Hr Hn). }
  destruct (json_loads (dict_get message "text")) as [e | data] eqn:Hj.
  { right. exists [comm_error e]. split; [done |]. intros rb.
    by rewrite (StreamSpec.endpoint_json_raises _ _ _ _ _ _ Hr Hn Hj). }
  destruct (py_getitem data "event") as [e | ev] eqn:He.
  { right. exists [comm_error e]. split; [done |]. intros rb.
    by rewrite (StreamSpec.endpoint_no_event _ _ _ _ _ _ _ Hr Hn Hj He). }
  destruct (py_eq_str ev "start") eqn:Hs.
  2:{ right. exists []. split; [done |]. intros rb.
      by rewrite (StreamSpec.endpoint_other_event _ _ _ _ _ _ _ Hr Hn Hj He Hs). }
  assert (ev = PyStr "start") as ->.
  { destruct ev; try discriminate Hs. cbn in Hs.
    apply String.eqb_eq in Hs. by subst. }
  destruct (py_getitem data "start") as [e | start] eqn:Hst.
  { right. exists [comm_error e]. split; [done |]. intros rb.
    rewrite (StreamSpec.endpoint_start_no_id _ _ _ _ _ _ e Hr Hn Hj He);
      [done | by left]. }
  destruct (py_getitem start "streamId") as [e | sid] eqn:Hid.
  { right. exists [comm_error e]. split; [done |]. intros rb.
    rewrite (StreamSpec.endpoint_start_no_id _ _ _ _ _ _ e Hr Hn Hj He);
      [done | right; by exists start]. }
  left. exists message, sid. split; [done |]. split; [done |].
  by exists data, start.
Qed.

Lemma start_message_functional json_loads message sid sid' :
  start_message json_loads message sid ->
  start_message json_loads message sid' -> sid = sid'.
Proof.
  intros (_ & d & s & Hj & _ & Hs & Hi) (_ & d' & s' & Hj' & _ & Hs' & Hi').
  congruence.
Qed.

(** X1.  The endpoint runs the bridge exactly when the first message is a
    start message with a stream identifier: then [run_bot] is applied once
    to that identifier; in every other case (the receive raises, no text,
    bad JSON, no or another event, start without identifier) the outcome
    and trace of the endpoint do not depend on [run_bot] at all and
    contain neither a send nor a pipeline run. *)
Theorem bridge_runs_exactly_on_start_messages :
  forall repr json_loads ws,
    (exists message sid,
        receive ws = inr message /\ start_message json_loads message sid
        /\ forall run_bot,
            websocket_endpoint repr json_loads run_bot ws
            = bridged repr sid (run_bot ws sid true))
    \/ ((forall message sid,
            receive ws = inr message ->
            ~ start_message json_loads message sid)
        /\ exists t,
            forallb silent t = true
            /\ forall run_bot,
                websocket_endpoint repr json_loads run_bot ws = (t, inr tt)).
Proof.
  intros repr json_loads ws.
  destruct (endpoint_dichotomy repr json_loads ws)
    as [(message & sid & Hr & Hs) | (notes & Hlog & Hrun)].
  - left. exists message, sid. split; [done |]. split; [done |].
    intros rb. by apply StreamSpec.endpoint_start with message.
  - right. split.
    + intros message sid Hr Hs.
      pose proof (Hrun (fun _ _ _ => ([WsSend PyNone], inr tt))) as H1.
      rewrite (StreamSpec.endpoint_start _ _ _ _ _ _ Hr Hs) in H1.
      unfold bridged in H1. cbn in H1.
      injection H1 as H1. apply (f_equal (List.filter is_socket_op)) in H1.
      rewrite !List.filter_app in H1.
      destruct (logs_are_silent notes Hlog) as (_ & Hn & _).
      rewrite Hn in H1. cbn in H1. discriminate H1.
    + exists (opening ++ notes ++ [closing]). split; [| exact Hrun].
      destruct (logs_are_silent notes Hlog) as (Hn & _).
      rewrite !forallb_app, Hn. reflexivity.
Qed.

(** X2.  A frame that announces ["start"] but has no [start] object, or
    whose [start] object has no [streamId], is treated as a communication
    error: the missing key is logged, the bridge is not run and the
    endpoint returns. *)
Theorem start_frame_without_id_is_an_error :
  forall repr json_loads ws message d,
    receive ws = inr message ->
    is_None (dict_get message "text") = false ->
    json_loads (dict_get message "text") = inr (PyDict d) ->
    d !! "event" = Some (PyStr "start") ->
    (d !! "start" = None ->
     forall run_bot,
       websocket_endpoint repr json_loads run_bot ws
       = (opening
          ++ [Log ERROR "Error in WebSocket communication: 'start'"; closing],
          inr tt))
    /\ (forall d',
           d !! "start" = Some (PyDict d') -> d' !! "streamId" = None ->
           forall run_bot,
             websocket_endpoint repr json_loads run_bot ws
             = (opening
                ++ [Log ERROR "Error in WebSocket communication: 'streamId'";
                    closing],
                inr tt)).
Proof.
  intros repr json_loads ws message d Hr Hn Hj He.
  assert (py_getitem (PyDict d) "event" = inr (PyStr "start")) as Hev
    by (cbn; by rewrite He).
  split.
  - intros Hs rb.
    rewrite (StreamSpec.endpoint_start_no_id _ _ _ _ _ _ (KeyError "start")
               Hr Hn Hj Hev); [done |].
    left. cbn. by rewrite Hs.
  - intros d' Hs Hi rb.
    rewrite (StreamSpec.endpoint_start_no_id _ _ _ _ _ _ (KeyError "streamId")
               Hr Hn Hj Hev); [done |].
    right. exists (PyDict d'). cbn. by rewrite Hs, Hi.
Qed.

Lemma start_frame_without_id_is_an_error_witness :
  receive Samples.socket = inr Samples.text_message
  /\ is_None (dict_get Samples.text_message "text") = false
  /\ ({[ "event" := PyStr "start" ]} : gmap string pyval) !! "event"
     = Some (PyStr "start")
  /\ ({[ "event" := PyStr "start" ]} : gmap string pyval) !! "start" = None
  /\ websocket_endpoint Samples.no_repr
       (fun _ => inr MoreSamples.start_without_id)
       (Bot.run_bot Samples.no_repr ∅ PyNone Samples.clean_run) Samples.socket
     = (opening
        ++ [Log ERROR "Error in WebSocket communication: 'start'"; closing],
        inr tt).
Proof.
  assert (receive Samples.socket = inr Samples.text_message) as H1
    by reflexivity.
  assert (is_None (dict_get Samples.text_message "text") = false) as H2
    by reflexivity.
  assert (({[ "event" := PyStr "start" ]} : gmap string pyval) !! "event"
          = Some (PyStr "start")) as H3 by reflexivity.
  assert (({[ "event" := PyStr "start" ]} : gmap string pyval) !! "start"
          = None) as H4 by reflexivity.
  split; [exact H1 |]. split; [exact H2 |]. split; [exact H3 |].
  split; [exact H4 |].
  exact (proj1 (start_frame_without_id_is_an_error Samples.no_repr
                  (fun _ => inr MoreSamples.start_without_id) Samples.socket
                  Samples.text_message _ H1 H2 eq_refl H3) H4
           (Bot.run_bot Samples.no_repr ∅ PyNone Samples.clean_run)).
Defined.

Lemma run_bot_cases repr env SP rt ws sid testing :
  Bot.run_bot repr env SP rt ws sid testing
  = match Bot.setup_fault rt with
    | Some e => ([bot_init repr sid], inl e)
    | None =>
        ([bot_init repr sid; bot_ready;
          RunnerRun the_runner (Bot.make_task env SP ws sid testing);
          match Bot.run_result rt with
          | inl e => pipeline_error e
          | inr _ => bot_done
          end], inr tt)
    end.
Proof.
  destruct (Bot.setup_fault rt) as [e |] eqn:Hs.
  - by apply StreamSpec.run_bot_setup_raises.
  - destruct (Bot.run_result rt) as [e | u] eqn:Hr.
    + by apply StreamSpec.run_bot_run_raises.
    + by apply StreamSpec.run_bot_run_returns with u.
Qed.

Lemma linked_endpoint_cases repr json_loads env SP rt ws :
  (exists sid,
      trace (stream_endpoint repr json_loads env SP rt ws)
      = opening ++ [accepted repr sid]
        ++ trace (Bot.run_bot repr env SP rt ws sid true)
        ++ match outcome (Bot.run_bot repr env SP rt ws sid true) with
           | inl e => [comm_error e]
           | inr _ => []
           end ++ [closing])
  \/ (exists notes,
         forallb is_Log notes = true
         /\ trace (stream_endpoint repr json_loads env SP rt ws)
            = opening ++ notes ++ [closing]).
Proof.
  unfold stream_endpoint.
  destruct (endpoint_dichotomy repr json_loads ws)
    as [(message & sid & Hr & Hs) | (notes & Hlog & Hrun)].
  - left. exists sid.
    by rewrite (StreamSpec.endpoint_start _ _ _ _ _ _ Hr Hs).
  - right. exists notes. split; [done |]. by rewrite Hrun.
Qed.

(** X3.  A connection runs at most one pipeline, with the runner built by
    [run_bot]; since the endpoint always passes [testing=True], the audio
    buffer of any pipeline the server runs has [user_continuous_stream]
    switched off. *)
Theorem one_pipeline_per_connection :
  forall repr json_loads env SYSTEM_PROMPT rt ws,
    let tr := trace (stream_endpoint repr json_loads env SYSTEM_PROMPT rt ws) in
    (length (List.filter is_RunnerRun tr) <= 1)%nat
    /\ forall runner task,
        In (RunnerRun runner task) tr ->
        runner = the_runner
        /\ omap stage_audiobuffer (pipeline task)
           = [ {| user_continuous_stream := false |} ]
        /\ List.filter is_RunnerRun tr = [RunnerRun runner task].
Proof.
  intros repr json_loads env SP rt ws tr. subst tr.
  destruct (linked_endpoint_cases repr json_loads env SP rt ws)
    as [(sid & Ht) | (notes & Hlog & Ht)]; rewrite Ht.
  - rewrite run_bot_cases.
    destruct (Bot.setup_fault rt) as [e |].
    + split; [cbn; lia |]. intros runner task Hin. cbn in Hin.
      repeat (destruct Hin as [Hin | Hin]; [discriminate Hin |]).
      destruct Hin.
    + destruct (Bot.run_result rt) as [e | u].
      * split; [cbn; lia |]. intros runner task Hin. cbn in Hin.
        repeat (destruct Hin as [Hin | Hin];
                [discriminate Hin || (injection Hin as <- <-; done) |]).
        destruct Hin.
      * split; [cbn; lia |]. intros runner task Hin. cbn in Hin.
        repeat (destruct Hin as [Hin | Hin];
                [discriminate Hin || (injection Hin as <- <-; done) |]).
        destruct Hin.
  - destruct (logs_are_silent notes Hlog) as (_ & _ & Hn).
    split.
    + cbn. rewrite List.filter_app, Hn. cbn. lia.
    + intros runner task Hin. cbn in Hin.
      destruct Hin as [Hin | [Hin | [Hin | Hin]]]; try discriminate Hin.
      apply in_app_or in Hin as [Hin | [Hin | []]]; [| discriminate Hin].
      assert (In (RunnerRun runner task) (List.filter is_RunnerRun notes))
        as Hf by (apply List.filter_In; by split).
      rewrite Hn in Hf. destruct Hf.
Qed.

Lemma one_pipeline_per_connection_witness :
  let tr := trace (stream_endpoint Samples.no_repr
                     (fun _ => inr Samples.start_frame) ∅ PyNone
                     Samples.failing_run Samples.socket) in
  let task := Bot.make_task ∅ PyNone Samples.socket (PyStr "s-42") true in
  In (RunnerRun the_runner task) tr
  /\ List.filter is_RunnerRun tr = [RunnerRun the_runner task].
Proof.
  intros tr task.
  assert (In (RunnerRun the_runner task) tr) as H.
  { subst tr task. cbn. do 6 right. left. reflexivity. }
  split; [exact H |].
  exact (proj2 (proj2 (proj2 (one_pipeline_per_connection Samples.no_repr
                  (fun _ => inr Samples.start_frame) ∅ PyNone
                  Samples.failing_run Samples.socket) the_runner task H))).
Defined.

(** X4.  Whatever the client sends and however the bridge ends, the code
    of the endpoint and of [run_bot] touches the socket exactly twice: it
    accepts the connection and then awaits one message; it never sends. *)
Theorem endpoint_accepts_then_reads_once :
  forall repr json_loads env SYSTEM_PROMPT rt ws,
    List.filter is_socket_op
      (trace (stream_endpoint repr json_loads env SYSTEM_PROMPT rt ws))
    = [WsAccept; WsReceive].
Proof.
  intros repr json_loads env SP rt ws.
  destruct (linked_endpoint_cases repr json_loads env SP rt ws)
    as [(sid & Ht) | (notes & Hlog & Ht)]; rewrite Ht.
  - rewrite run_bot_cases.
    destruct (Bot.setup_fault rt) as [e |]; [reflexivity |].
    by destruct (Bot.run_result rt).
  - destruct (logs_are_silent notes Hlog) as (_ & Hn & _).
    cbn. by rewrite List.filter_app, Hn.
Qed.

(** X5.  [run_bot] raises exactly when building the transport and the
    services raises, with that exception and before any pipeline is run;
    once the set-up has succeeded it returns normally whatever
    [runner.run] does, after exactly one run. *)
Theorem run_bot_raises_only_from_setup :
  forall repr env SYSTEM_PROMPT rt ws sid testing,
    let r := Bot.run_bot repr env SYSTEM_PROMPT rt ws sid testing in
    match Bot.setup_fault rt with
    | Some e => outcome r = inl e /\ List.filter is_RunnerRun (trace r) = []
    | None =>
        outcome r = inr tt
        /\ List.filter is_RunnerRun (trace r)
           = [RunnerRun the_runner
                (Bot.make_task env SYSTEM_PROMPT ws sid testing)]
    end.
Proof.
  intros repr env SP rt ws sid testing r. subst r. rewrite run_bot_cases.
  destruct (Bot.setup_fault rt) as [e |]; [done |].
  by destruct (Bot.run_result rt).
Qed.

(** X6.  The conversation context of every task is seeded with exactly one
    message, of role system: the imported SYSTEM_PROMPT when it is truthy,
    the built-in prompt when the import failed ([None]) or the prompt is
    empty; the user and the assistant aggregator work on this one
    context. *)
Theorem context_is_seeded_with_one_system_message :
  forall env SYSTEM_PROMPT ws sid testing,
    let task := Bot.make_task env SYSTEM_PROMPT ws sid testing in
    exists ctx,
      omap stage_context (pipeline task) = [ctx; ctx]
      /\ (truthy SYSTEM_PROMPT = true ->
          messages ctx = [system_message SYSTEM_PROMPT])
      /\ (SYSTEM_PROMPT = PyNone \/ SYSTEM_PROMPT = PyStr "" ->
          messages ctx
          = [system_message (PyStr Bot.default_system_prompt)]).
Proof.
  intros env SP ws sid testing task. subst task.
  eexists. split; [reflexivity |]. split.
  - intros Ht. cbn -[truthy Bot.default_system_prompt]. by rewrite Ht.
  - intros [-> | ->]; reflexivity.
Qed.

Lemma context_is_seeded_with_one_system_message_witness :
  truthy (PyStr "You are Mirai.") = true
  /\ exists ctx,
      omap stage_context
        (pipeline (Bot.make_task ∅ (PyStr "You are Mirai.") Samples.socket
                     (PyStr "s-42") true)) = [ctx; ctx]
      /\ messages ctx = [system_message (PyStr "You are Mirai.")].
Proof.
  assert (truthy (PyStr "You are Mirai.") = true) as H by reflexivity.
  split; [exact H |].
  destruct (context_is_seeded_with_one_system_message ∅
              (PyStr "You are Mirai.") Samples.socket (PyStr "s-42") true)
    as (ctx & H1 & H2 & _).
  exists ctx. split; [exact H1 | exact (H2 H)].
Defined.

End StreamMore.

(* ===================================================================== *)
(** * How a [/stream] connection ends                                     *)
(* ===================================================================== *)

Module StreamExit.
Import App StreamVocabulary MoreVocabulary.







End StreamExit.


(* ===================================================================== *)
(** * More on the start-up configuration and on [POST /start-call]        *)
(* ===================================================================== *)

Module CallMore.
Import App CallVocabulary MoreVocabulary.

Lemma start_call_cases repr env create_result c :
  start_plivo_call_with repr env create_result (Some c)
  = match create_result with
    | inl e =>
        ([start_call_log; create_request repr env;
          Log ERROR ("Error initiating outbound call: " +:+ str_exc e)],
         inr (error_reply (str_exc e)))
    | inr response =>
        match py_getitem response "request_uuid" with
        | inl e =>
            ([start_call_log; create_request repr env;
              Log ERROR ("Error initiating outbound call: " +:+ str_exc e)],
             inr (error_reply (str_exc e)))
        | inr uuid =>
            ([start_call_log; create_request repr env;
              Log INFO ("Outbound call initiated successfully. Call UUID: "
                        +:+ py_str repr uuid)],
             inr (success_reply uuid))
        end
    end.
Proof.
  destruct create_result as [e | response].
  - apply CallSpec.start_call_provider_raises.
  - destruct (py_getitem response "request_uuid") as [e | uuid] eqn:H.
    + by apply CallSpec.start_call_response_without_uuid.
    + by apply CallSpec.start_call_success.
Qed.

(** X7.  An invocation of [POST /start-call] sends at most one creation
    request to the provider and never repeats it: exactly one when the
    client is configured, whatever the provider then does (returns, raises,
    answers without a request_uuid), and none when it is not. *)
Theorem start_call_sends_at_most_one_request :
  forall repr env create_result,
    List.filter is_CallsCreate
      (trace (start_plivo_call repr env create_result))
    = match plivo_client repr env with
      | Some _ => [create_request repr env]
      | None => []
      end.
Proof.
  intros repr env create_result. unfold start_plivo_call.
  destruct (plivo_client repr env) as [c |]; [| reflexivity].
  rewrite start_call_cases.
  destruct create_result as [e | response]; [reflexivity |].
  by destruct (py_getitem response "request_uuid").
Qed.

(** X8.  When the provider accepts the creation request but its response
    has no request_uuid (or is not subscriptable by a string), the endpoint
    answers with the error body carrying the text of the lookup failure,
    although the call has been requested. *)
Theorem response_without_uuid_is_reported_as_error :
  forall repr env c response e,
    plivo_client repr env = Some c ->
    py_getitem response "request_uuid" = inl e ->
    let r := start_plivo_call repr env (inr response) in
    outcome r = inr (error_reply (str_exc e))
    /\ trace r
       = [start_call_log; create_request repr env;
          Log ERROR ("Error initiating outbound call: " +:+ str_exc e)]
    /\ (forall d, response = PyDict d ->
                  error_reply (str_exc e) = error_reply "'request_uuid'").
Proof.
  intros repr env c response e Hc He r. subst r.
  unfold start_plivo_call. rewrite Hc, start_call_cases, He.
  split; [done |]. split; [done |].
  intros d ->. cbn in He. destruct (d !! "request_uuid"); [discriminate He |].
  by injection He as <-.
Qed.

Lemma response_without_uuid_is_reported_as_error_witness :
  plivo_client Samples.no_repr Samples.env_credentials_only
  = Some {| auth_id := PyStr "MANJK3ZTE0MDQ1OWVHYT";
            auth_token := PyStr "secret" |}
  /\ py_getitem MoreSamples.response_without_uuid "request_uuid"
     = inl (KeyError "request_uuid")
  /\ outcome (start_plivo_call Samples.no_repr Samples.env_credentials_only
                (inr MoreSamples.response_without_uuid))
     = inr (error_reply "'request_uuid'").
Proof.
  assert (plivo_client Samples.no_repr Samples.env_credentials_only
          = Some {| auth_id := PyStr "MANJK3ZTE0MDQ1OWVHYT";
                    auth_token := PyStr "secret" |}) as H1
    by (vm_compute; reflexivity).
  assert (py_getitem MoreSamples.response_without_uuid "request_uuid"
          = inl (KeyError "request_uuid")) as H2 by (vm_compute; reflexivity).
  split; [exact H1 |]. split; [exact H2 |].
  exact (proj1 (response_without_uuid_is_reported_as_error Samples.no_repr
                  Samples.env_credentials_only _
                  MoreSamples.response_without_uuid _ H1 H2)).
Defined.

(** X9.  The answer URL is PLIVO_ANSWER_XML when that variable is set and
    not empty; otherwise it is NGROK_URL followed by /webhook, where an
    unset NGROK_URL contributes the text None. *)
Theorem answer_url_precedence :
  forall repr env,
    PLIVO_ANSWER_XML repr env
    = match env !! "PLIVO_ANSWER_XML" with
      | Some (String a s) => PyStr (String a s)
      | _ =>
          PyStr (match env !! "NGROK_URL" with
                 | Some u => u
                 | None => "None"
                 end +:+ "/webhook")
      end.
Proof.
  intros repr env. unfold PLIVO_ANSWER_XML, NGROK_URL, py_or, getenv.
  destruct (env !! "PLIVO_ANSWER_XML") as [[| a s] |];
    destruct (env !! "NGROK_URL"); reflexivity.
Qed.

(** X10.  With the two credentials set and none of the number and URL
    variables, the start-up check passes; when the client constructor
    accepts the credentials the module loads with the client bound, and
    [POST /start-call] on that binding asks the provider for a call
    between the two built-in integer numbers, with the answer URL
    None/webhook and method POST. *)
Theorem credentials_alone_place_the_default_call :
  forall repr env RestClient_refuses create_result,
    truthy (PLIVO_AUTH_ID env) = true ->
    truthy (PLIVO_AUTH_TOKEN env) = true ->
    env !! "PLIVO_FROM_NUMBER" = None ->
    env !! "PLIVO_TO_NUMBER" = None ->
    env !! "PLIVO_ANSWER_XML" = None ->
    env !! "NGROK_URL" = None ->
    RestClient_refuses (PLIVO_AUTH_ID env) (PLIVO_AUTH_TOKEN env) = None ->
    exists client,
      outcome (startup repr env RestClient_refuses) = inr (Some client)
      /\ List.filter is_CallsCreate
           (trace (start_plivo_call_with repr env create_result
                     (Some client)))
         = [CallsCreate (PyInt 918035737766) (PyInt 919671454088)
              (PyStr "None/webhook") "POST"].
Proof.
  intros repr env refuses create_result Hid Htok Hfrom Hto Hxml Hngrok Hacc.
  pose proof (CallSpec.credentials_pass_the_check repr env Hid Htok Hfrom Hto)
    as Hc.
  eexists. split.
  { rewrite CallSpec.startup_outcome, Hc, Hacc. reflexivity. }
  rewrite start_call_cases.
  assert (create_request repr env
          = CallsCreate (PyInt 918035737766) (PyInt 919671454088)
              (PyStr "None/webhook") "POST") as ->.
  { unfold create_request, PLIVO_FROM_NUMBER, PLIVO_TO_NUMBER,
      PLIVO_ANSWER_XML, NGROK_URL, getenv_default, getenv.
    by rewrite Hfrom, Hto, Hxml, Hngrok. }
  destruct create_result as [e | response]; [reflexivity |].
  by destruct (py_getitem response "request_uuid").
Qed.

Lemma credentials_alone_place_the_default_call_witness :
  truthy (PLIVO_AUTH_ID Samples.env_credentials_only) = true
  /\ truthy (PLIVO_AUTH_TOKEN Samples.env_credentials_only) = true
  /\ Samples.accepting (PLIVO_AUTH_ID Samples.env_credentials_only)
       (PLIVO_AUTH_TOKEN Samples.env_credentials_only) = None
  /\ exists client,
      outcome (startup Samples.no_repr Samples.env_credentials_only
                 Samples.accepting) = inr (Some client)
      /\ List.filter is_CallsCreate
           (trace (start_plivo_call_with Samples.no_repr
                     Samples.env_credentials_only
                     (inr Samples.provider_response) (Some client)))
         = [CallsCreate (PyInt 918035737766) (PyInt 919671454088)
              (PyStr "None/webhook") "POST"].
Proof.
  assert (truthy (PLIVO_AUTH_ID Samples.env_credentials_only) = true) as H1
    by (vm_compute; reflexivity).
  assert (truthy (PLIVO_AUTH_TOKEN Samples.env_credentials_only) = true)
    as H2 by (vm_compute; reflexivity).
  assert (Samples.accepting (PLIVO_AUTH_ID Samples.env_credentials_only)
            (PLIVO_AUTH_TOKEN Samples.env_credentials_only) = None) as H3
    by reflexivity.
  split; [exact H1 |]. split; [exact H2 |]. split; [exact H3 |].
  apply (credentials_alone_place_the_default_call Samples.no_repr
           Samples.env_credentials_only Samples.accepting
           (inr Samples.provider_response) H1 H2);
    first [exact H3 | vm_compute; reflexivity].
Defined.

End CallMore.


(* ===================================================================== *)
(** * More on [save_audio], the recordings and the audio callback         *)
(* ===================================================================== *)

Module AudioMore.
Import Wave Bot AudioVocabulary MoreVocabulary.









(** ** Recording names *)

Lemma digit_value_digit (n : Z) : digit_value (digit n) = n mod 10.
Proof.
  unfold digit_value, digit.
  pose proof (Z.mod_pos_bound n 10 eq_refl) as Hb.
  rewrite nat_ascii_embedding by lia. lia.
Qed.

Lemma read2_dec2 (n : Z) (r : string) :
  0 <= n < 100 -> read2 (dec2 n +:+ r) = Some (n, r).
Proof.
  intros Hn. cbv [read2 dec2 String.append].
  rewrite !digit_value_digit. do 2 f_equal.
  Z.to_euclidean_division_equations. lia.
Qed.

Lemma read4_dec4 (n : Z) (r : string) :
  0 <= n < 10000 -> read4 (dec4 n +:+ r) = Some (n, r).
Proof.
  intros Hn. cbv [read4 read2 dec4 dec2 String.append].
  rewrite !digit_value_digit. do 2 f_equal.
  Z.to_euclidean_division_equations. lia.
Qed.

Lemma read_stamp_strftime (d : datetime) :
  calendar d ->
  read_stamp (strftime_stamp d)
  = Some (year d, month d, day d, hour d, minute d, second d).
Proof.
  intros (Hy & Hmo & Hd & Hh & Hmi & Hs).
  unfold read_stamp, strftime_stamp.
  rewrite read4_dec4 by lia. cbv beta iota.
  rewrite read2_dec2 by lia. cbv beta iota.
  rewrite read2_dec2 by lia. cbv beta iota.
  change ("_" +:+ ?x) with (String "_" x). cbv beta iota.
  rewrite read2_dec2 by lia. cbv beta iota.
  rewrite read2_dec2 by lia. cbv beta iota.
  change (dec2 (second d)) with (dec2 (second d) +:+ "").
  rewrite read2_dec2 by lia. reflexivity.
Qed.

Lemma append_same_length_inj (a b t t' : string) :
  String.length t = String.length t' ->
  a +:+ t = b +:+ t' -> a = b /\ t = t'.
Proof.
  revert b. induction a as [| c a IH]; intros [| c' b] Hlen Heq;
    change (String ?x ?y +:+ ?z) with (String x (y +:+ z)) in Heq;
    change (EmptyString +:+ ?z) with z in Heq.
  - done.
  - exfalso. apply (f_equal String.length) in Heq.
    cbn [String.length] in Heq.
    rewrite TextFacts.length_append_string in Heq. lia.
  - exfalso. apply (f_equal String.length) in Heq.
    cbn [String.length] in Heq.
    rewrite TextFacts.length_append_string in Heq. lia.
  - injection Heq as -> Heq. destruct (IH b Hlen Heq) as [-> ->]. done.
Qed.

Lemma recording_name_inj now now' sn sn' :
  calendar now -> calendar now' ->
  recording_name now sn = recording_name now' sn' ->
  sn = sn' /\ same_second now now'.
Proof.
  intros Hc Hc'. unfold recording_name. intros Heq.
  apply append_same_length_inj in Heq as [-> Heq]; [| reflexivity].
  split; [reflexivity |].
  apply append_same_length_inj in Heq as [_ Heq]; [| reflexivity].
  apply append_same_length_inj in Heq as [Heq _]; [| reflexivity].
  pose proof (read_stamp_strftime now Hc) as H1.
  pose proof (read_stamp_strftime now' Hc') as H2.
  rewrite Heq, H2 in H1. injection H1 as E1 E2 E3 E4 E5 E6.
  unfold same_second. intuition congruence.
Qed.

(** X14.  For clock readings within their calendar ranges, two recordings
    get the same file name exactly when they come from the same server
    name within the same second: the stamp determines the second and the
    name determines server name and stamp. *)
Theorem recording_names_identify_server_and_second :
  forall now now' server_name server_name',
    calendar now -> calendar now' ->
    (recording_name now server_name = recording_name now' server_name'
     <-> server_name = server_name' /\ same_second now now').
Proof.
  intros now now' sn sn' Hc Hc'. split.
  - by apply recording_name_inj.
  - intros [-> Hs]. unfold recording_name.
    by rewrite (AudioSpec.stamp_same_second _ _ Hs).
Qed.

Lemma recording_names_identify_server_and_second_witness :
  calendar Samples.clock /\ calendar MoreSamples.clock_next
  /\ (recording_name Samples.clock "server_50000"
      = recording_name MoreSamples.clock_next "server_50000"
      <-> "server_50000" = "server_50000"
          /\ same_second Samples.clock MoreSamples.clock_next).
Proof.
  assert (calendar Samples.clock) as H1 by (unfold calendar; cbn; lia).
  assert (calendar MoreSamples.clock_next) as H2
    by (unfold calendar; cbn; lia).
  split; [exact H1 |]. split; [exact H2 |].
  exact (recording_names_identify_server_and_second Samples.clock
           MoreSamples.clock_next "server_50000" "server_50000" H1 H2).
Defined.



(** ** When the writer accepts its parameters *)










End AudioMore.


(* ===================================================================== *)
(** * More on the command-line caller                                     *)
(* ===================================================================== *)

Module CliMore.
Import App MakeCall CliVocabulary MoreVocabulary CliMoreVocabulary.

Lemma rstrip_slashes_only (k : nat) : rstrip "/" (slashes k) = "".
Proof. induction k as [| k IH]; [reflexivity |]. cbn. by rewrite IH. Qed.

Lemma rstrip_append_slashes (s : string) (k : nat) :
  rstrip "/" (s +:+ slashes k) = rstrip "/" s.
Proof.
  induction s as [| a s IH].
  - change ("" +:+ slashes k) with (slashes k).
    by rewrite rstrip_slashes_only.
  - change (String a s +:+ slashes k) with (String a (s +:+ slashes k)).
    cbn [rstrip]. by rewrite IH.
Qed.

Lemma rstrip_decompose (s : string) :
  exists k, s = rstrip "/" s +:+ slashes k.
Proof.
  induction s as [| a s [k IH]]; [by exists 0%nat |].
  cbn [rstrip].
  destruct (String.eqb (rstrip "/" s) "") eqn:He.
  - apply String.eqb_eq in He. rewrite He in IH.
    change ("" +:+ slashes k) with (slashes k) in IH.
    destruct (Ascii.eqb_spec a "/") as [-> | Hne]; cbn [andb].
    + exists (S k). by rewrite IH.
    + exists k. rewrite He. by rewrite IH at 1.
  - cbn [andb]. exists k.
    change (String a (rstrip "/" s) +:+ slashes k)
      with (String a (rstrip "/" s +:+ slashes k)).
    by rewrite <- IH.
Qed.

Lemma rstrip_no_trailing_slash (s : string) :
  ends_with "/" (rstrip "/" s) = false.
Proof.
  induction s as [| a s IH]; [reflexivity |].
  cbn [rstrip].
  destruct (String.eqb (rstrip "/" s) "") eqn:He.
  - apply String.eqb_eq in He.
    destruct (Ascii.eqb_spec a "/") as [-> | Hne]; cbn [andb];
      [reflexivity |].
    rewrite He. cbn. by apply Ascii.eqb_neq.
  - cbn [andb]. destruct (rstrip "/" s) as [| b t] eqn:Hr;
      [discriminate He |].
    exact IH.
Qed.

(** X18.  The caller normalises the server URL by removing all trailing
    slashes and nothing else: the URL it posts to is that stem followed by
    /call/ and the phone number, the stem does not end with a slash, and
    server URLs that differ only in trailing slashes lead to the same
    request. *)
Theorem server_url_is_stripped_of_trailing_slashes :
  forall requests_post phone_number server_url,
    (exists k, server_url = rstrip "/" server_url +:+ slashes k)
    /\ ends_with "/" (rstrip "/" server_url) = false
    /\ (exists rest,
           trace (make_call requests_post phone_number (Some server_url))
           = HttpPost (rstrip "/" server_url +:+ "/call/" +:+ phone_number)
             :: rest)
    /\ (forall k,
           make_call requests_post phone_number
             (Some (server_url +:+ slashes k))
           = make_call requests_post phone_number (Some server_url)).
Proof.
  intros requests_post phone_number server_url.
  split; [apply rstrip_decompose |].
  split; [apply rstrip_no_trailing_slash |]. split.
  - unfold make_call, call_path. cbv beta zeta. cbn [from_option id].
    destruct (requests_post _) as [e | r].
    + cbn. destruct (is_RequestException e); cbn; eauto.
      destruct (exc_response_text e); eauto.
    + cbn -[raise_for_status response_json].
      destruct (raise_for_status r) as [e | []]; cbn -[response_json].
      * destruct (is_RequestException e); cbn; eauto.
        destruct (exc_response_text e); eauto.
      * destruct (response_json r) as [e | v]; cbn; eauto.
        destruct (is_RequestException e); cbn; eauto.
        destruct (exc_response_text e); eauto.
  - intros k. unfold make_call. cbv beta zeta. cbn [from_option id].
    by rewrite rstrip_append_slashes.
Qed.

(** X19.  The server URL is the [-u] argument when it is given and not
    empty, else the SERVER_URL variable when it is set (an empty value
    included, which makes the request target the relative path
    /call/<phone number>), else http://localhost:8765. *)
Theorem server_url_precedence :
  forall env url phone_number,
    chosen_server_url env url
    = Some match url with
           | Some (String a s) => String a s
           | _ =>
               match env !! "SERVER_URL" with
               | Some s => s
               | None => "http://localhost:8765"
               end
           end
    /\ (env !! "SERVER_URL" = Some "" ->
        target env phone_number None = "/call/" +:+ phone_number).
Proof.
  intros env url phone_number. split.
  - unfold chosen_server_url, py_or, getenv_default.
    destruct url as [[| a s] |]; destruct (env !! "SERVER_URL"); reflexivity.
  - intros H. unfold target, chosen_server_url, py_or, getenv_default.
    rewrite H. reflexivity.
Qed.

Lemma server_url_precedence_witness :
  ({[ "SERVER_URL" := "" ]} : gmap string string) !! "SERVER_URL" = Some ""
  /\ target {[ "SERVER_URL" := "" ]} "15551234567" None
     = "/call/15551234567".
Proof.
  assert (({[ "SERVER_URL" := "" ]} : gmap string string) !! "SERVER_URL"
          = Some "") as H by reflexivity.
  split; [exact H |].
  exact (proj2 (server_url_precedence {[ "SERVER_URL" := "" ]} None
                  "15551234567") H).
Defined.

Section MakeCall.
Variable requests_post : string -> Exception + HttpResponse.
Variable phone_number : string.
Variable server_url : option string.

Local Abbreviation tgt :=
  (rstrip "/" (default "http://localhost:8765" server_url)
   +:+ call_path phone_number).
Local Abbreviation run := (make_call requests_post phone_number server_url).

Lemma make_call_delivered v :
  delivered (requests_post tgt) v -> run = ([HttpPost tgt], inr v).
Proof.
  intros (r & Hp & Hs & Hj). unfold make_call. cbv beta zeta.
  rewrite Hp. cbn -[raise_for_status response_json].
  unfold lift. rewrite Hs. cbn -[response_json].
  unfold response_json. by rewrite Hj.
Qed.

Lemma make_call_failed e :
  request_failed (requests_post tgt) e ->
  run = (HttpPost tgt :: map Print (error_lines e), inr PyNone).
Proof.
  intros Hf. unfold make_call. cbv beta zeta.
  destruct Hf as [[Hp He] | [(r & Hp & Hs) | (r & Hp & Hs & Hj)]];
    rewrite Hp; cbn -[raise_for_status response_json].
  - rewrite He. unfold error_lines.
    by destruct (exc_response_text e).
  - unfold lift. rewrite Hs. unfold error_lines.
    unfold raise_for_status in Hs.
    destruct ((400 <=? status_code r) && (status_code r <? 500));
      [injection Hs as <-; reflexivity |].
    destruct ((500 <=? status_code r) && (status_code r <? 600));
      [injection Hs as <-; reflexivity | discriminate Hs].
  - unfold lift. rewrite Hs. cbn -[response_json]. rewrite Hj.
    unfold response_json in Hj.
    destruct (json_body r); [injection Hj as <-; reflexivity |].
    discriminate Hj.
Qed.

Lemma make_call_other_exception e :
  requests_post tgt = inl e -> is_RequestException e = false ->
  run = ([HttpPost tgt], inl e).
Proof.
  intros Hp He. unfold make_call. cbv beta zeta. rewrite Hp. cbn.
  by rewrite He.
Qed.

Lemma request_outcomes :
  (exists v, delivered (requests_post tgt) v)
  \/ (exists e, request_failed (requests_post tgt) e)
  \/ (exists e, requests_post tgt = inl e /\ is_RequestException e = false).
Proof.
  destruct (requests_post tgt) as [e | r] eqn:Hp.
  { destruct (is_RequestException e) eqn:He.
    - right; left. exists e. by left.
    - right; right. by exists e. }
  destruct (raise_for_status r) as [e | []] eqn:Hs.
  { right; left. exists e. right; left. by exists r. }
  destruct (json_body r) as [msg | v] eqn:Hj.
  - right; left. exists (RequestException msg None). right; right.
    exists r. unfold response_json. by rewrite Hj.
  - left. exists v. by exists r.
Qed.
End MakeCall.

(** X20.  [make_call] turns every request failure into the result [None]
    after printing the error (and the response text when the error carries
    a response); on success it returns the decoded body and prints
    nothing; it issues one POST in every case, and the only exceptions
    that leave it are exceptions of [requests.post] that are not
    [RequestException]s. *)
Theorem make_call_absorbs_request_failures :
  forall requests_post phone_number server_url,
    let tgt := rstrip "/" (default "http://localhost:8765" server_url)
               +:+ call_path phone_number in
    let m := make_call requests_post phone_number server_url in
    (forall v, delivered (requests_post tgt) v ->
               m = ([HttpPost tgt], inr v))
    /\ (forall e, request_failed (requests_post tgt) e ->
                  outcome m = inr PyNone
                  /\ trace m = HttpPost tgt :: map Print (error_lines e))
    /\ (forall e, outcome m = inl e ->
                  is_RequestException e = false
                  /\ requests_post tgt = inl e /\ printed m = []).
Proof.
  intros requests_post phone_number server_url tgt m. subst tgt m.
  split; [intros v; apply make_call_delivered |]. split.
  - intros e Hf. by rewrite (make_call_failed _ _ _ e Hf).
  - intros e He.
    destruct (request_outcomes requests_post phone_number server_url)
      as [(v & Hd) | [(e' & Hf) | (e' & Hp & Hn)]].
    + rewrite (make_call_delivered _ _ _ v Hd) in He. discriminate He.
    + rewrite (make_call_failed _ _ _ e' Hf) in He. discriminate He.
    + rewrite (make_call_other_exception _ _ _ e' Hp Hn) in He |- *.
      injection He as <-. done.
Qed.

Lemma make_call_absorbs_request_failures_witness :
  let post := fun _ : string => inr Samples.not_found_reply in
  request_failed (post "http://localhost:8765/call/15551234567")
    (RequestException
       "404 Client Error: Not Found for url: http://localhost:8765/call/15551234567"
       (Some "not found"))
  /\ outcome (make_call post "15551234567" None) = inr PyNone
  /\ printed (make_call post "15551234567" None)
     = ["Error making call: 404 Client Error: Not Found for url: http://localhost:8765/call/15551234567";
        "Response: not found"].
Proof.
  intros post.
  assert (request_failed (post "http://localhost:8765/call/15551234567")
            (RequestException
               "404 Client Error: Not Found for url: http://localhost:8765/call/15551234567"
               (Some "not found"))) as H.
  { right; left. exists Samples.not_found_reply. split; reflexivity. }
  split; [exact H |].
  destruct (proj1 (proj2 (make_call_absorbs_request_failures post
                            "15551234567" None)) _ H) as [H1 H2].
  split; [exact H1 |]. unfold printed. rewrite H2. reflexivity.
Defined.

Section Main.
Variable repr : pyval -> string.
Variable env : gmap string string.
Variable requests_post : string -> Exception + HttpResponse.
Variable phone_number : string.
Variable url : option string.

Local Abbreviation tgt := (target env phone_number url).
Local Abbreviation run := (main repr env requests_post phone_number url).

Lemma main_delivered v :
  delivered (requests_post tgt) v ->
  run = if truthy v then
          match py_get v "call_sid" with
          | inl e => ([HttpPost tgt], inl e)
          | inr call_sid =>
              ([HttpPost tgt;
                Print ("Call initiated successfully! Call SID: "
                       +:+ py_str repr call_sid)], inr 0)
          end
        else ([HttpPost tgt; Print "Failed to initiate call."], inr 1).
Proof.
  intros (r & Hp & Hs & Hj).
  rewrite (CliSpec.main_succeeded repr env requests_post phone_number url
             r v Hp Hs Hj).
  cbn -[truthy py_get]. destruct (truthy v); [| reflexivity].
  by destruct (py_get v "call_sid").
Qed.

Lemma main_other_exception e :
  requests_post tgt = inl e -> is_RequestException e = false ->
  run = ([HttpPost tgt], inl e).
Proof.
  intros Hp He. unfold main. rewrite CliSpec.make_call_unfold, Hp. cbn.
  by rewrite He.
Qed.

Lemma main_outcomes :
  (exists v, delivered (requests_post tgt) v)
  \/ (exists e, request_failed (requests_post tgt) e)
  \/ (exists e, requests_post tgt = inl e /\ is_RequestException e = false).
Proof.
  destruct (requests_post tgt) as [e | r] eqn:Hp.
  { destruct (is_RequestException e) eqn:He.
    - right; left. exists e. by left.
    - right; right. by exists e. }
  destruct (raise_for_status r) as [e | []] eqn:Hs.
  { right; left. exists e. right; left. by exists r. }
  destruct (json_body r) as [msg | v] eqn:Hj.
  - right; left. exists (RequestException msg None). right; right.
    exists r. unfold response_json. by rewrite Hj.
  - left. exists v. by exists r.
Qed.

Lemma delivered_functional v v' :
  delivered (requests_post tgt) v -> delivered (requests_post tgt) v' ->
  v = v'.
Proof. intros (r & Hp & _ & Hj) (r' & Hp' & _ & Hj'). congruence. Qed.
End Main.

(** X21.  The caller exits with status 0 exactly when the request delivers
    a non-empty JSON object; in every other case (request failure, empty
    or non-object body, exception) the status is 1. *)
Theorem exit_status_0_exactly_for_nonempty_object :
  forall repr env requests_post phone_number url,
    let tgt := target env phone_number url in
    (exit_status repr env requests_post phone_number url = 0
     <-> exists d, delivered (requests_post tgt) (PyDict d) /\ d <> ∅)
    /\ (exit_status repr env requests_post phone_number url = 0
        \/ exit_status repr env requests_post phone_number url = 1).
Proof.
  intros repr env requests_post phone_number url tgt. subst tgt.
  unfold exit_status.
  destruct (main_outcomes env requests_post phone_number url)
    as [(v & Hd) | [(e & Hf) | (e & Hp & Hn)]].
  - rewrite (main_delivered repr env requests_post phone_number url v Hd).
    destruct (truthy v) eqn:Ht.
    + destruct v; cbn [py_get]; cbn [outcome snd];
        try (split; [| by right]; split; [discriminate |];
             intros (d' & Hd' & _);
             by pose proof (delivered_functional _ _ _ _ _ _ Hd Hd')).
      split; [| by left]. split; [| done].
      intros _. exists d. split; [done |]. intros ->. discriminate Ht.
    + split; [| by right]. cbn. split; [discriminate |].
      intros (d' & Hd' & Hne).
      pose proof (delivered_functional _ _ _ _ _ _ Hd Hd') as ->.
      cbn in Ht. by rewrite bool_decide_eq_false_2 in Ht.
  - rewrite (CliSpec.main_request_failed repr env requests_post
               phone_number url e Hf).
    split; [| by right]. cbn. split; [discriminate |].
    intros (d & (r & Hp & Hs & Hj) & _).
    destruct Hf as [[Hp' _] | [(r' & Hp' & Hs') | (r' & Hp' & _ & Hj')]].
    + congruence.
    + congruence.
    + unfold response_json in Hj'. rewrite Hp in Hp'.
      injection Hp' as <-. rewrite Hj in Hj'. discriminate Hj'.
  - rewrite (main_other_exception repr env requests_post phone_number url
               e Hp Hn).
    split; [| by right]. cbn. split; [discriminate |].
    intros (d & (r & Hp' & _) & _). congruence.
Qed.

(** X22.  A reply whose JSON is truthy but not an object (a non-empty
    list or string, a non-zero number, true) is not reported at all: the
    lookup of call_sid raises AttributeError out of [main], nothing is
    printed and the process ends with status 1. *)
Theorem non_object_reply_crashes_the_caller :
  forall repr env requests_post phone_number url v,
    delivered (requests_post (target env phone_number url)) v ->
    truthy v = true -> is_dict v = false ->
    outcome (main repr env requests_post phone_number url)
    = inl (AttributeError
             ("'" +:+ type_name v +:+ "' object has no attribute 'get'"))
    /\ stdout repr env requests_post phone_number url = []
    /\ exit_status repr env requests_post phone_number url = 1.
Proof.
  intros repr env requests_post phone_number url v Hd Ht Hnd.
  unfold stdout, exit_status.
  rewrite (main_delivered repr env requests_post phone_number url v Hd), Ht.
  destruct v; try discriminate Hnd; done.
Qed.

Lemma non_object_reply_crashes_the_caller_witness :
  let post := fun _ : string => inr MoreSamples.list_reply in
  delivered (post (target ∅ "15551234567" None)) (PyList [PyInt 1])
  /\ truthy (PyList [PyInt 1]) = true
  /\ is_dict (PyList [PyInt 1]) = false
  /\ stdout Samples.no_repr ∅ post "15551234567" None = []
  /\ exit_status Samples.no_repr ∅ post "15551234567" None = 1.
Proof.
  intros post.
  assert (delivered (post (target ∅ "15551234567" None)) (PyList [PyInt 1]))
    as H1 by (exists MoreSamples.list_reply; repeat split).
  assert (truthy (PyList [PyInt 1]) = true) as H2 by reflexivity.
  assert (is_dict (PyList [PyInt 1]) = false) as H3 by reflexivity.
  split; [exact H1 |]. split; [exact H2 |]. split; [exact H3 |].
  exact (proj2 (non_object_reply_crashes_the_caller Samples.no_repr ∅ post
                  "15551234567" None _ H1 H2 H3)).
Defined.

(** X23.  A reply whose JSON is falsy (null, false, 0, the empty string,
    list or object) is taken for a failure although the request
    succeeded: the caller prints only the failure line and exits with
    status 1. *)
Theorem falsy_reply_is_taken_for_failure :
  forall repr env requests_post phone_number url v,
    delivered (requests_post (target env phone_number url)) v ->
    truthy v = false ->
    stdout repr env requests_post phone_number url
    = ["Failed to initiate call."]
    /\ exit_status repr env requests_post phone_number url = 1.
Proof.
  intros repr env requests_post phone_number url v Hd Ht.
  unfold stdout, exit_status.
  by rewrite (main_delivered repr env requests_post phone_number url v Hd),
    Ht.
Qed.

Lemma falsy_reply_is_taken_for_failure_witness :
  let post := fun _ : string => inr MoreSamples.null_reply in
  delivered (post (target ∅ "15551234567" None)) PyNone
  /\ truthy PyNone = false
  /\ stdout Samples.no_repr ∅ post "15551234567" None
     = ["Failed to initiate call."]
  /\ exit_status Samples.no_repr ∅ post "15551234567" None = 1.
Proof.
  intros post.
  assert (delivered (post (target ∅ "15551234567" None)) PyNone) as H1
    by (exists MoreSamples.null_reply; repeat split).
  assert (truthy PyNone = false) as H2 by reflexivity.
  split; [exact H1 |]. split; [exact H2 |].
  exact (falsy_reply_is_taken_for_failure Samples.no_repr ∅ post
           "15551234567" None _ H1 H2).
Defined.

End CliMore.


(* ===================================================================== *)
(** * More on the route table                                             *)
(* ===================================================================== *)

Module RouteMore.
Import App MoreVocabulary.

Lemma full_match_inv (r : Route) (m : Method) (path : string) :
  is_FULL (matches r m path) = true ->
  exists methods,
    route_kind r = HttpRoute methods
    /\ (path = route_path r \/ path = route_path r +:+ nl)
    /\ existsb (Method_eqb m) methods = true.
Proof.
  unfold matches, path_regex_match.
  destruct (route_kind r) as [methods |]; [| discriminate].
  destruct (String.eqb_spec (route_path r) path) as [Hp | _].
  - destruct (existsb (Method_eqb m) methods) eqn:Hm; [| discriminate].
    intros _. exists methods. split; [done |]. split; [by left | done].
  - destruct (String.eqb_spec (route_path r +:+ nl) path) as [Hp | _];
      [| discriminate].
    destruct (existsb (Method_eqb m) methods) eqn:Hm; [| discriminate].
    intros _. exists methods. split; [done |]. split; [by right | done].
Qed.

Lemma handled_inv (m : Method) (path : string) (e : Endpoint) :
  route_request all_routes m path = Handled e ->
  exists r methods,
    In r all_routes /\ endpoint r = e
    /\ route_kind r = HttpRoute methods
    /\ (path = route_path r \/ path = route_path r +:+ nl)
    /\ existsb (Method_eqb m) methods = true.
Proof.
  unfold route_request.
  destruct (find (fun r => is_FULL (matches r m path)) all_routes)
    as [r |] eqn:Hf.
  - intros [= <-]. apply find_some in Hf as [Hin Hfull].
    apply full_match_inv in Hfull as (methods & Hk & Hp & Hm).
    by exists r, methods.
  - destruct (find (fun r => is_PARTIAL (matches r m path)) all_routes);
      [discriminate |].
    by destruct (_ && _).
Qed.

(** X24.  The router hands an HTTP request to an endpoint exactly when
    its method is one of a declared HTTP route (GET /, POST /webhook,
    POST /start-call, GET or HEAD on the four documentation routes) and
    its path is the path of that route, possibly followed by one
    newline; in particular [/stream] is never served to a plain HTTP
    request.  A declared path asked with a method, other than OPTIONS,
    that no route declares for it is answered 405. *)
Theorem http_requests_are_served_on_declared_routes_only :
  forall m path e,
    (route_request all_routes m path = Handled e
     <-> exists p, In (m, p, e) http_table
                   /\ (path = p \/ path = p +:+ nl))
    /\ route_request all_routes m path <> Handled ep_websocket_endpoint
    /\ (forall m',
           In (m', path, e) http_table ->
           (forall e', ~ In (m, path, e') http_table) ->
           m <> OPTIONS ->
           route_request all_routes m path = MethodNotAllowed).
Proof.
  intros m path e.
  split; [split |]; [| | split].
  - intros H. apply handled_inv in H as (r & methods & Hin & <- & Hk & Hp & Hm).
    exists (route_path r). split; [| exact Hp]. clear Hp. cbn in Hin.
    repeat (destruct Hin as [<- | Hin];
            [injection Hk as <-;
             destruct m; try discriminate Hm; cbn; auto 15 |]).
    destruct Hin as [<- | []]. discriminate Hk.
  - intros (p & Hin & Hp). cbn in Hin.
    repeat (destruct Hin as [[= <- <- <-] | Hin];
            [destruct Hp as [-> | ->]; reflexivity |]).
    destruct Hin.
  - intros H. apply handled_inv in H as (r & methods & Hin & He & Hk & _).
    cbn in Hin.
    repeat (destruct Hin as [<- | Hin]; [discriminate He |]).
    destruct Hin as [<- | []]. discriminate Hk.
  - intros m' Hin Hno Hopt. cbn in Hin.
    repeat (destruct Hin as [[= <- <- <-] | Hin];
            [destruct m;
             first [ reflexivity | congruence
                   | exfalso; eapply Hno; cbn; auto 15 ] |]).
    destruct Hin.
Qed.

Lemma http_requests_are_served_on_declared_routes_only_witness :
  In (POST, "/start-call", ep_start_plivo_call) http_table
  /\ (forall e', ~ In (GET, "/start-call", e') http_table)
  /\ GET <> OPTIONS
  /\ route_request all_routes GET "/start-call" = MethodNotAllowed.
Proof.
  assert (In (POST, "/start-call", ep_start_plivo_call) http_table) as H1
    by (cbn; auto 15).
  assert (forall e', ~ In (GET, "/start-call", e') http_table) as H2.
  { intros e' H. cbn in H.
    repeat (destruct H as [H | H]; [discriminate H |]). destruct H. }
  assert (GET <> OPTIONS) as H3 by discriminate.
  split; [exact H1 |]. split; [exact H2 |]. split; [exact H3 |].
  exact (proj2 (proj2 (http_requests_are_served_on_declared_routes_only
                         GET "/start-call" ep_start_plivo_call))
           POST H1 H2 H3).
Defined.

(** The documentation answers HEAD, the application's own GET route does
    not, and a path with a newline after it is the path. *)
Example head_and_newline :
  route_request all_routes HEAD "/docs" = Handled ep_swagger_ui
  /\ route_request all_routes HEAD "/" = MethodNotAllowed
  /\ route_request all_routes POST ("/start-call" +:+ nl)
     = Handled ep_start_plivo_call.
Proof. repeat split. Qed.

End RouteMore.
